(** * hartea: the analysis engine of a HAR (HTTP Archive) viewer

    A shallow embedding of the Go packages [internal/har] (metrics
    calculator, timeline builder, comparator) and of the waterfall layout
    of the [tui] package, with the properties of the engine stated and
    proved over it.

    Conventions of the embedding:
    - Go [int] and [int64] are 64-bit two's-complement integers, carried
      as [Z] with the wrap-around written out ([wrap64]);
    - Go [float64] is IEEE 754 binary64, carried as Rocq's primitive
      [float], whose operations are the same binary64 operations;
    - [time.Time] is an instant, carried as a number of nanoseconds since
      the zero Time; [time.Duration] is an [int64] count of nanoseconds;
    - a Go struct is a record in a module of the struct's name
      ([Entry.t], [Metrics.t], ...), so that fields read [Entry.Time e];
    - a run-time panic (index out of range) is [None]. *)

From Stdlib Require Import ZArith List String Ascii Bool Lia.
From Stdlib Require Import Floats DecimalString Permutation Sorted.
Import ListNotations.

Local Open Scope Z_scope.

(** ** Machine integers *)

Module GoInt.

Definition min_int64 : Z := - 2 ^ 63.
Definition max_int64 : Z := 2 ^ 63 - 1.

Definition in_int64 (z : Z) : Prop := min_int64 <= z <= max_int64.

Definition in_int64b (z : Z) : bool := (min_int64 <=? z) && (z <=? max_int64).

(** Two's-complement wrap-around of an [int64] result. *)
Definition wrap64 (z : Z) : Z := (z + 2 ^ 63) mod 2 ^ 64 - 2 ^ 63.

Definition add64 (a b : Z) : Z := wrap64 (a + b).
Definition sub64 (a b : Z) : Z := wrap64 (a - b).
Definition mul64 (a b : Z) : Z := wrap64 (a * b).
Definition neg64 (a : Z) : Z := wrap64 (- a).

End GoInt.

(** ** Floating point *)

Module GoFloat.

Import GoInt.

(** [float64(n)] for an integer [n]: the nearest binary64, ties to even. *)
Definition of_int (n : Z) : float :=
  SF2Prim (binary_normalize prec emax n 0 false).

(** The integer part of a finite float, rounding toward zero. *)
Definition trunc (f : float) : option Z :=
  match Prim2SF f with
  | S754_zero _ => Some 0
  | S754_finite s m e =>
      let a := if 0 <=? e then Z.pos m * 2 ^ e else Z.pos m / 2 ^ (- e) in
      Some (if s then - a else a)
  | S754_infinity _ => None
  | S754_nan => None
  end.


(** [int64(f)] and [int(f)].  When the integer part of [f] is not an
    [int64] (or [f] is an infinity or a NaN) Go leaves the result to the
    implementation; the value taken here is the one of amd64, whose
    conversion instruction answers the "integer indefinite" value
    [0x8000000000000000] (arm64 saturates instead).  What is proved of a
    conversion below either holds of every [int64] result, or is stated
    for [representable] floats. *)
Definition to_int64 (f : float) : Z :=
  match trunc f with
  | Some z => if in_int64b z then z else min_int64
  | None => min_int64
  end.

(** The constant [0.1] as a [float64]. *)
Definition one_tenth : float := 0x1.999999999999ap-4%float.

End GoFloat.

(** ** Package [time] *)

Module time.

Import GoInt.

(** An instant: nanoseconds since the zero Time. *)
Definition Time : Type := Z.

(** [time.Duration]: an [int64] number of nanoseconds. *)
Definition Duration : Type := Z.

Definition zero : Time := 0.

Definition Millisecond : Duration := 1000000.
Definition Second : Duration := 1000000000.

Definition Before (t u : Time) : bool := t <? u.
Definition After (t u : Time) : bool := u <? t.

Definition Add (t : Time) (d : Duration) : Time := t + d.

(** [t.Sub(u)]: the difference, saturated to the range of a Duration. *)
Definition Sub (t u : Time) : Duration :=
  let d := t - u in
  if d <? min_int64 then min_int64
  else if max_int64 <? d then max_int64
  else d.

(** [d.Seconds()]: [float64(d / Second) + float64(d % Second) / 1e9]. *)
Definition Seconds (d : Duration) : float :=
  let sec := Z.quot d Second in
  let nsec := Z.rem d Second in
  PrimFloat.add (GoFloat.of_int sec)
                (PrimFloat.div (GoFloat.of_int nsec) 1e9%float).

(** [time.Duration(ms) * time.Millisecond] for a [float64] [ms]. *)
Definition of_float_ms (ms : float) : Duration :=
  mul64 (GoFloat.to_int64 ms) Millisecond.

End time.

(** ** Package [strings] *)

Module strings.

(** [strings.Contains(s, substr)]. *)
Fixpoint Contains (s substr : string) : bool :=
  String.prefix substr s
  || match s with
     | EmptyString => false
     | String _ s' => Contains s' substr
     end.

End strings.

(** ** The HAR data model ([internal/har/types.go]) *)

Module PageTimings.
Record t := mk { OnContentLoad : Z; OnLoad : Z }.
End PageTimings.

Module Page.
Record t := mk { StartedDateTime : time.Time; ID : string;
                 Title : string; PageTimings : PageTimings.t }.
End Page.

Module Request.
Record t := mk { Method : string; URL : string; HTTPVersion : string }.
End Request.

Module Content.
Record t := mk { Size : Z; MimeType : string }.
End Content.

Module Response.
Record t := mk { Status : Z; StatusText : string; Content : Content.t }.
End Response.

Module CacheState.
Record t := mk { ETag : string; HitCount : Z }.
End CacheState.

Module Cache.
(** The pointers [*CacheState] are options: [nil] is [None]. *)
Record t := mk { BeforeRequest : option CacheState.t;
                 AfterRequest : option CacheState.t }.
End Cache.

Module Timings.
Record t := mk { Blocked : Z; DNS : Z; Connect : Z; Send : Z;
                 Wait : Z; Receive : Z; SSL : Z }.
End Timings.

Module Entry.
Record t := mk { StartedDateTime : time.Time;
                 Time : float;
                 Request : Request.t;
                 Response : Response.t;
                 Cache : Cache.t;
                 Timings : Timings.t }.
End Entry.

Module Log.
Record t := mk { Version : string; Pages : list Page.t;
                 Entries : list Entry.t }.
End Log.

Module HAR.
Record t := mk { Log : Log.t }.
End HAR.

(** ** Package [sort]

    [sort.Slice] belongs to the Go library, not to this repository: it is
    a parameter of the embedding.  Its documentation promises a sorted
    rearrangement of the slice for a [less] that is a strict weak
    ordering, and says that the sort "is not guaranteed to be stable:
    equal elements may be reversed from their original order". *)

Module sort.

Class Algorithm : Type :=
  { Slice : forall A : Type, (A -> A -> bool) -> list A -> list A }.

Definition StrictWeakOrder {A : Type} (less : A -> A -> bool) : Prop :=
  (forall x, less x x = false)
  /\ (forall x y z, less x y = true -> less y z = true -> less x z = true)
  /\ (forall x y z, less x y = false -> less y z = false -> less x z = false).

(** No element is less than an element before it. *)
Definition Sorted {A : Type} (less : A -> A -> bool) : list A -> Prop :=
  StronglySorted (fun x y => less y x = false).

Class Contract (alg : Algorithm) : Prop :=
  { Slice_permutation :
      forall (A : Type) (less : A -> A -> bool) (l : list A),
        Permutation l (Slice A less l);
    Slice_sorted :
      forall (A : Type) (less : A -> A -> bool) (l : list A),
        StrictWeakOrder less -> Sorted less (Slice A less l) }.

(** An implementation that meets the contract: [insertionSort] is the
    insertion sort the library runs on short slices, each element being
    moved left while it is less than its left neighbour.  In [sink],
    [sorted_rev] is the sorted prefix in reverse: its head is the element
    just left of the one being inserted. *)
Fixpoint sink {A : Type} (less : A -> A -> bool) (x : A)
  (sorted_rev : list A) : list A :=
  match sorted_rev with
  | [] => [x]
  | y :: l' => if less x y then y :: sink less x l' else x :: y :: l'
  end.

Definition insertionSort {A : Type} (less : A -> A -> bool) (l : list A)
  : list A :=
  rev (fold_left (fun sorted_rev x => sink less x sorted_rev) l []).

Definition insertion : Algorithm := {| Slice := @insertionSort |}.

(** *** The algorithm of the library

    [sort.Slice] of the Go release that the Dockerfile builds with
    (1.24) runs [pdqsort_func] of the package [sort] on the whole slice.
    The package is no part of the repository: the theorems on
    [GenerateTimeline] and the other callers rest on the contract above,
    and the algorithm is embedded below to run the callers on concrete
    slices.  Its functions work on the slice through [data.Less] and
    [data.Swap]; here they are actions on a list. *)

Section Pdqsort.

Context {A : Type}.

(** The [less] closure, on elements. *)
Variable less : A -> A -> bool.

(** [xorshift.Next], from one state of the generator to the next. *)
Variable next : Z -> Z.

(** An action on the slice being sorted; [None] is a panic (an index
    out of range) or a loop that was given too little fuel. *)
Definition M (X : Type) : Type := list A -> option (X * list A).

Definition ret {X : Type} (x : X) : M X := fun data => Some (x, data).

Definition bind {X Y : Type} (m : M X) (f : X -> M Y) : M Y :=
  fun data =>
    match m data with
    | Some (x, data') => f x data'
    | None => None
    end.

Definition index (data : list A) (i : Z) : option A :=
  if i <? 0 then None else nth_error data (Z.to_nat i).

Definition update (data : list A) (i : Z) (x : A) : list A :=
  firstn (Z.to_nat i) data ++ x :: skipn (S (Z.to_nat i)) data.

(** [data.Less(i, j)]: the closure handed to [sort.Slice] reads the
    elements at [i] and [j] of the slice as it is now. *)
Definition Less (i j : Z) : M bool :=
  fun data =>
    match index data i, index data j with
    | Some x, Some y => Some (less x y, data)
    | _, _ => None
    end.

(** [data.Swap(i, j)]. *)
Definition Swap (i j : Z) : M unit :=
  fun data =>
    match index data i, index data j with
    | Some x, Some y => Some (tt, update (update data i y) j x)
    | _, _ => None
    end.

(** A [for] loop: [step] answers the next state ([inl]) or the result on
    leaving the loop ([inr]). *)
Fixpoint loop {S R : Type} (fuel : nat) (step : S -> M (S + R)) (s : S) : M R :=
  match fuel with
  | O => fun _ => None
  | Datatypes.S fuel' =>
      bind (step s)
           (fun x => match x with
                     | inl s' => loop fuel' step s'
                     | inr r => ret r
                     end)
  end.

Definition continue {S R : Type} (s : S) : M (S + R) := ret (inl s).
Definition leave {S R : Type} (r : R) : M (S + R) := ret (inr r).

(** The bound given to every loop but the outermost; the length of the
    slice and two more are enough, each loop moving an index of the
    slice by one at every turn. *)
Variable fuel : nat.

(** [insertionSort_func]:
    [for i := a + 1; i < b; i++ {
       for j := i; j > a && data.Less(j, j-1); j-- { data.Swap(j, j-1) } }]. *)
Definition insertionSort_func (a b : Z) : M unit :=
  loop fuel
    (fun i =>
       if i <? b then
         bind (loop fuel
                 (fun j =>
                    if a <? j then
                      bind (Less j (j - 1))
                           (fun l => if l
                                     then bind (Swap j (j - 1))
                                               (fun _ => continue (j - 1))
                                     else leave tt)
                    else leave tt)
                 i)
              (fun _ : unit => continue (i + 1))
       else leave tt)
    (a + 1).

(** [siftDown_func], on [data[lo:hi]] with the offset [first]. *)
Definition siftDown_func (lo hi first : Z) : M unit :=
  loop fuel
    (fun root =>
       let child := 2 * root + 1 in
       if hi <=? child then leave tt
       else
         bind (if child + 1 <? hi
               then Less (first + child) (first + child + 1)
               else ret false)
              (fun up =>
                 let child := if up then child + 1 else child in
                 bind (Less (first + root) (first + child))
                      (fun l =>
                         if negb l then leave tt
                         else bind (Swap (first + root) (first + child))
                                   (fun _ => continue child))))
    lo.

Definition heapSort_func (a b : Z) : M unit :=
  let first := a in
  let lo := 0 in
  let hi := b - a in
  bind (loop fuel
          (fun i =>
             if 0 <=? i
             then bind (siftDown_func i hi first) (fun _ => continue (i - 1))
             else leave tt)
          (Z.quot (hi - 1) 2))
       (fun _ : unit =>
          loop fuel
            (fun i =>
               if 0 <=? i
               then bind (Swap first (first + i))
                         (fun _ => bind (siftDown_func lo i first)
                                        (fun _ => continue (i - 1)))
               else leave tt)
            (hi - 1)).

(** [partition_func]: the new place of the pivot, and whether the
    slice was partitioned already. *)
Definition scanUp (a : Z) (j : Z) : Z -> M Z :=
  loop fuel
    (fun i =>
       if i <=? j then
         bind (Less i a) (fun l => if l then continue (i + 1) else leave i)
       else leave i).

Definition scanDown (a : Z) (i : Z) : Z -> M Z :=
  loop fuel
    (fun j =>
       if i <=? j then
         bind (Less j a) (fun l => if negb l then continue (j - 1) else leave j)
       else leave j).

Definition partition_func (a b pivot : Z) : M (Z * bool) :=
  bind (Swap a pivot) (fun _ =>
  bind (scanUp a (b - 1) (a + 1)) (fun i =>
  bind (scanDown a i (b - 1)) (fun j =>
  if j <? i then bind (Swap j a) (fun _ => ret (j, true))
  else
    bind (Swap i j) (fun _ =>
    bind (loop fuel
            (fun ij : Z * Z =>
               let (i, j) := ij in
               bind (scanUp a j i) (fun i =>
               bind (scanDown a i j) (fun j =>
               if j <? i then leave j
               else bind (Swap i j) (fun _ => continue (i + 1, j - 1)))))
            (i + 1, j - 1))
         (fun j => bind (Swap j a) (fun _ => ret (j, false))))))).

(** [partitionEqual_func]. *)
Definition partitionEqual_func (a b pivot : Z) : M Z :=
  bind (Swap a pivot) (fun _ =>
  loop fuel
    (fun ij : Z * Z =>
       let (i, j) := ij in
       bind (loop fuel
               (fun i =>
                  if i <=? j then
                    bind (Less a i)
                         (fun l => if negb l then continue (i + 1) else leave i)
                  else leave i)
               i) (fun i =>
       bind (loop fuel
               (fun j =>
                  if i <=? j then
                    bind (Less a j)
                         (fun l => if l then continue (j - 1) else leave j)
                  else leave j)
               j) (fun j =>
       if j <? i then leave i
       else bind (Swap i j) (fun _ => continue (i + 1, j - 1)))))
    (a + 1, b - 1)).

(** The inner loops of [partialInsertionSort_func], each
    [if !data.Less(j, j-1) { break }; data.Swap(j, j-1)]. *)
Definition shiftStep (j : Z) (after : Z) : M (Z + unit) :=
  bind (Less j (j - 1))
       (fun l => if negb l then leave tt
                 else bind (Swap j (j - 1)) (fun _ => continue after)).

Definition partialInsertionSort_func (a b : Z) : M bool :=
  let maxSteps := 5 in
  let shortestShifting := 50 in
  loop fuel
    (fun ji : Z * Z =>
       let (j, i) := ji in
       if j <? maxSteps then
         bind (loop fuel
                 (fun i =>
                    if i <? b then
                      bind (Less i (i - 1))
                           (fun l => if negb l then continue (i + 1) else leave i)
                    else leave i)
                 i) (fun i =>
         if i =? b then leave true
         else if b - a <? shortestShifting then leave false
         else
           bind (Swap i (i - 1)) (fun _ =>
           bind (if 2 <=? i - a
                 then loop fuel
                        (fun j => if 1 <=? j then shiftStep j (j - 1) else leave tt)
                        (i - 1)
                 else ret tt) (fun _ =>
           bind (if 2 <=? b - i
                 then loop fuel
                        (fun j => if j <? b then shiftStep j (j + 1) else leave tt)
                        (i + 1)
                 else ret tt) (fun _ =>
           continue (j + 1, i)))))
       else leave false)
    (0, a + 1).

(** [bits.Len(uint(length))]. *)
Definition bitsLen (length : Z) : Z :=
  if length <=? 0 then 0 else Z.log2 length + 1.

(** [breakPatterns_func]; [next] is [xorshift.Next] on the state. *)
Definition breakPatterns_func (a b : Z) : M unit :=
  let length := b - a in
  if 8 <=? length then
    let modulus := 2 ^ bitsLen length in
    let idx := a + Z.quot length 4 * 2 - 1 in
    loop fuel
      (fun ir : Z * Z =>
         let (i, random) := ir in
         if i <? 3 then
           let random := next random in
           let other := Z.land random (modulus - 1) in
           let other := if length <=? other then other - length else other in
           bind (Swap (idx - 1 + i) (a + other))
                (fun _ => continue (i + 1, random))
         else leave tt)
      (0, length)
  else ret tt.

Inductive sortedHint := unknownHint | increasingHint | decreasingHint.

(** [order2_func], [median_func] and [medianAdjacent_func], the
    count of swaps passed along. *)
Definition order2_func (a b swaps : Z) : M (Z * Z * Z) :=
  bind (Less b a)
       (fun l => if l then ret (b, a, swaps + 1) else ret (a, b, swaps)).

Definition median_func (a b c swaps : Z) : M (Z * Z) :=
  bind (order2_func a b swaps) (fun r => let '(a, b, swaps) := r in
  bind (order2_func b c swaps) (fun r => let '(b, c, swaps) := r in
  bind (order2_func a b swaps) (fun r => let '(a, b, swaps) := r in
  ret (b, swaps)))).

Definition medianAdjacent_func (a swaps : Z) : M (Z * Z) :=
  median_func (a - 1) a (a + 1) swaps.

Definition choosePivot_func (a b : Z) : M (Z * sortedHint) :=
  let shortestNinther := 50 in
  let maxSwaps := 4 * 3 in
  let l := b - a in
  let i := a + Z.quot l 4 * 1 in
  let j := a + Z.quot l 4 * 2 in
  let k := a + Z.quot l 4 * 3 in
  bind (if 8 <=? l then
          bind (if shortestNinther <=? l then
                  bind (medianAdjacent_func i 0) (fun r => let (i, swaps) := r in
                  bind (medianAdjacent_func j swaps) (fun r => let (j, swaps) := r in
                  bind (medianAdjacent_func k swaps) (fun r => let (k, swaps) := r in
                  ret (i, j, k, swaps))))
                else ret (i, j, k, 0))
               (fun r => let '(i, j, k, swaps) := r in median_func i j k swaps)
        else ret (j, 0))
       (fun r => let (j, swaps) := r in
          if swaps =? 0 then ret (j, increasingHint)
          else if swaps =? maxSwaps then ret (j, decreasingHint)
          else ret (j, unknownHint)).

Definition reverseRange_func (a b : Z) : M unit :=
  loop fuel
    (fun ij : Z * Z =>
       let (i, j) := ij in
       if i <? j then bind (Swap i j) (fun _ => continue (i + 1, j - 1))
       else leave tt)
    (a, b - 1).

(** [pdqsort_func]: one turn of its [for] loop per unit of [turns];
    [wasBalanced] and [wasPartitioned] are its two variables. *)
Fixpoint pdqsort_func (turns : nat) (a b limit : Z)
  (wasBalanced wasPartitioned : bool) : M unit :=
  match turns with
  | O => fun _ => None
  | S turns' =>
      let maxInsertion := 12 in
      let length := b - a in
      if length <=? maxInsertion then insertionSort_func a b
      else if limit =? 0 then heapSort_func a b
      else
        bind (if negb wasBalanced
              then bind (breakPatterns_func a b) (fun _ => ret (limit - 1))
              else ret limit) (fun limit =>
        bind (choosePivot_func a b) (fun ph =>
        bind (match snd ph with
              | decreasingHint =>
                  bind (reverseRange_func a b)
                       (fun _ => ret ((b - 1) - (fst ph - a), increasingHint))
              | _ => ret ph
              end) (fun ph =>
        let (pivot, hint) := ph in
        bind (match hint with
              | increasingHint =>
                  if wasBalanced && wasPartitioned
                  then partialInsertionSort_func a b
                  else ret false
              | _ => ret false
              end) (fun sorted =>
        if sorted then ret tt
        else
          bind (if 0 <? a
                then bind (Less (a - 1) pivot) (fun l => ret (negb l))
                else ret false) (fun equal =>
          if equal then
            bind (partitionEqual_func a b pivot) (fun mid =>
            pdqsort_func turns' mid b limit wasBalanced wasPartitioned)
          else
            bind (partition_func a b pivot) (fun r =>
            let (mid, alreadyPartitioned) := r in
            let leftLen := mid - a in
            let rightLen := b - mid in
            let balanceThreshold := Z.quot length 8 in
            if leftLen <? rightLen then
              bind (pdqsort_func turns' a mid limit true true) (fun _ =>
              pdqsort_func turns' (mid + 1) b limit
                           (balanceThreshold <=? leftLen) alreadyPartitioned)
            else
              bind (pdqsort_func turns' (mid + 1) b limit true true) (fun _ =>
              pdqsort_func turns' a mid limit
                           (balanceThreshold <=? rightLen) alreadyPartitioned)))))))
  end.

End Pdqsort.

(** [Slice]: [pdqsort_func(data, 0, length, bits.Len(uint(length)))]. *)
Definition sliceRun {A : Type} (next : Z -> Z) (less : A -> A -> bool)
  (l : list A) : option (list A) :=
  let length := Z.of_nat (List.length l) in
  match pdqsort_func less next (List.length l + 2) (List.length l + 1)
                     0 length (bitsLen length) true true l with
  | Some (_, data) => Some data
  | None => None
  end.

(** The library's sort for a generator [next]; a run that would stop
    short leaves the slice as it was. *)
Definition pdqsort (next : Z -> Z) : Algorithm :=
  {| Slice := fun A less l =>
                match sliceRun next less l with
                | Some data => data
                | None => l
                end |}.

(** A 64-bit xorshift step, for the generator that [breakPatterns_func]
    draws three indices from. *)
Definition xorshift (r : Z) : Z :=
  let r := Z.lxor r (Z.shiftl r 13 mod 2 ^ 64) in
  let r := Z.lxor r (Z.shiftr r 17) in
  Z.lxor r (Z.shiftl r 5 mod 2 ^ 64).

End sort.

(** ** Metrics calculator and timeline builder ([internal/har]) *)

Module Metrics.
Record t := mk { TotalRequests : Z;
                 TotalTime : float;
                 TotalSize : Z;
                 TTFB : float;
                 PageLoadTime : float;
                 DNSTime : float;
                 ConnectTime : float;
                 SSLTime : float;
                 FirstContentfulPaint : float;
                 LargestContentfulPaint : float;
                 CacheHitRatio : float;
                 ThirdPartyRequests : Z;
                 ErrorRequests : Z }.

(** The zero value [Metrics{}]. *)
Definition zero : t := mk 0 0 0 0 0 0 0 0 0 0 0 0 0.
End Metrics.

Module TimelineEvent.
Record t := mk { Index : Z;
                 URL : string;
                 Method : string;
                 Status : Z;
                 StartTime : time.Time;
                 Duration : float;
                 Size : Z;
                 ContentType : string }.
End TimelineEvent.

Module Analyzer.

Import GoInt.

Record t := mk { har : HAR.t }.

Definition NewAnalyzer (h : HAR.t) : t := mk h.

Definition thirdPartyDomains : list string :=
  [ "googleapis.com"; "googletagmanager.com"; "facebook.com";
    "twitter.com"; "analytics.google.com"; "doubleclick.net";
    "amazon.com"; "cdn."; "cdnjs." ]%string.

Definition isThirdParty (url : string) : bool :=
  existsb (fun domain => strings.Contains url domain) thirdPartyDomains.

(** The local variables of [CalculateMetrics] that its loop updates. *)
Record locals := mkLocals { totalSize : Z;
                            totalTime : float;
                            dnsTime : float;
                            connectTime : float;
                            sslTime : float;
                            cacheHits : Z;
                            errorRequests : Z;
                            thirdPartyRequests : Z;
                            firstByte : float }.

Definition locals0 : locals := mkLocals 0 0 0 0 0 0 0 0 (-1)%float.

(** One iteration of [for _, entry := range entries].  The three
    counters go up by one per entry at most, so they stay below the
    length of the slice and never wrap. *)
Definition loopBody (v : locals) (entry : Entry.t) : locals :=
  let tm := Entry.Timings entry in
  let wait := GoFloat.of_int (Timings.Wait tm) in
  {| totalTime := PrimFloat.add (totalTime v) (Entry.Time entry);
     totalSize :=
       add64 (totalSize v) (Content.Size (Response.Content (Entry.Response entry)));
     errorRequests :=
       if 400 <=? Response.Status (Entry.Response entry)
       then errorRequests v + 1 else errorRequests v;
     dnsTime :=
       if 0 <? Timings.DNS tm
       then PrimFloat.add (dnsTime v) (GoFloat.of_int (Timings.DNS tm))
       else dnsTime v;
     connectTime :=
       if 0 <? Timings.Connect tm
       then PrimFloat.add (connectTime v) (GoFloat.of_int (Timings.Connect tm))
       else connectTime v;
     sslTime :=
       if 0 <? Timings.SSL tm
       then PrimFloat.add (sslTime v) (GoFloat.of_int (Timings.SSL tm))
       else sslTime v;
     firstByte :=
       if PrimFloat.eqb (firstByte v) (-1)%float
          || ((0 <? Timings.Wait tm) && PrimFloat.ltb wait (firstByte v))
       then wait else firstByte v;
     cacheHits :=
       match Cache.BeforeRequest (Entry.Cache entry) with
       | Some _ => cacheHits v + 1
       | None => cacheHits v
       end;
     thirdPartyRequests :=
       if isThirdParty (Request.URL (Entry.Request entry))
       then thirdPartyRequests v + 1 else thirdPartyRequests v |}.

Definition calculateEstimatedPageLoadTime (a : t) : float :=
  match Log.Entries (HAR.Log (har a)) with
  | [] => 0%float
  | first :: _ as entries =>
      let body (b : time.Time * time.Time) (entry : Entry.t) :=
        let (maxEndTime, minStartTime) := b in
        let minStartTime' :=
          if time.Before (Entry.StartedDateTime entry) minStartTime
          then Entry.StartedDateTime entry else minStartTime in
        let endTime :=
          time.Add (Entry.StartedDateTime entry)
                   (time.of_float_ms (Entry.Time entry)) in
        let maxEndTime' :=
          if time.After endTime maxEndTime then endTime else maxEndTime in
        (maxEndTime', minStartTime') in
      let (maxEndTime, minStartTime) :=
        fold_left body entries (time.zero, Entry.StartedDateTime first) in
      PrimFloat.mul (time.Seconds (time.Sub maxEndTime minStartTime)) 1000
  end.

Definition CalculateMetrics (a : t) : Metrics.t :=
  let entries := Log.Entries (HAR.Log (har a)) in
  match entries with
  | [] => Metrics.zero
  | _ :: _ =>
      let n := Z.of_nat (List.length entries) in
      let pageLoadTime :=
        match Log.Pages (HAR.Log (har a)) with
        | page :: _ =>
            if 0 <? PageTimings.OnLoad (Page.PageTimings page)
            then GoFloat.of_int (PageTimings.OnLoad (Page.PageTimings page))
            else 0%float
        | [] => 0%float
        end in
      let v := fold_left loopBody entries locals0 in
      {| Metrics.TotalRequests := n;
         Metrics.TotalTime := totalTime v;
         Metrics.TotalSize := totalSize v;
         Metrics.TTFB := firstByte v;
         Metrics.DNSTime := PrimFloat.div (dnsTime v) (GoFloat.of_int n);
         Metrics.ConnectTime := PrimFloat.div (connectTime v) (GoFloat.of_int n);
         Metrics.SSLTime := PrimFloat.div (sslTime v) (GoFloat.of_int n);
         Metrics.FirstContentfulPaint := 0;
         Metrics.LargestContentfulPaint := 0;
         Metrics.CacheHitRatio :=
           PrimFloat.mul
             (PrimFloat.div (GoFloat.of_int (cacheHits v)) (GoFloat.of_int n))
             100;
         Metrics.ThirdPartyRequests := thirdPartyRequests v;
         Metrics.ErrorRequests := errorRequests v;
         Metrics.PageLoadTime :=
           if PrimFloat.eqb pageLoadTime 0
           then calculateEstimatedPageLoadTime a
           else pageLoadTime |}
  end.

(** The projection of entry number [i] that [GenerateTimeline] appends. *)
Definition eventOf (i : Z) (entry : Entry.t) : TimelineEvent.t :=
  {| TimelineEvent.Index := i;
     TimelineEvent.URL := Request.URL (Entry.Request entry);
     TimelineEvent.Method := Request.Method (Entry.Request entry);
     TimelineEvent.Status := Response.Status (Entry.Response entry);
     TimelineEvent.StartTime := Entry.StartedDateTime entry;
     TimelineEvent.Duration := Entry.Time entry;
     TimelineEvent.Size := Content.Size (Response.Content (Entry.Response entry));
     TimelineEvent.ContentType :=
       Content.MimeType (Response.Content (Entry.Response entry)) |}.

(** [for i, entry := range entries { events = append(events, ...) }]:
    the state is the next index and the slice built so far. *)
Definition appendEvents (entries : list Entry.t) : list TimelineEvent.t :=
  snd (fold_left
         (fun (st : Z * list TimelineEvent.t) entry =>
            (fst st + 1, snd st ++ [eventOf (fst st) entry]))
         entries (0, [])).

(** The [less] closure handed to [sort.Slice]. *)
Definition lessByStartTime (x y : TimelineEvent.t) : bool :=
  time.Before (TimelineEvent.StartTime x) (TimelineEvent.StartTime y).

Definition GenerateTimeline `{sort.Algorithm} (a : t) : list TimelineEvent.t :=
  sort.Slice _ lessByStartTime (appendEvents (Log.Entries (HAR.Log (har a)))).

(** [for _, entry := range ... { if ... { errors = append(errors, entry) } }]. *)
Definition GetErrorRequests (a : t) : list Entry.t :=
  fold_left
    (fun errors entry =>
       if 400 <=? Response.Status (Entry.Response entry)
       then errors ++ [entry] else errors)
    (Log.Entries (HAR.Log (har a))) [].

(** The [less] closures of [GetSlowestRequests] and [GetLargestRequests]. *)
Definition slowerThan (x y : Entry.t) : bool :=
  PrimFloat.ltb (Entry.Time y) (Entry.Time x).


(** [entries[:limit]] after [if limit > len(entries) { limit = len(entries) }];
    the slice expression panics on a negative [limit]. *)
Definition upTo (limit : Z) (entries : list Entry.t) : option (list Entry.t) :=
  let n := Z.of_nat (List.length entries) in
  let limit := if n <? limit then n else limit in
  if limit <? 0 then None else Some (firstn (Z.to_nat limit) entries).

(** Both functions sort a copy of the entries. *)
Definition GetSlowestRequests `{sort.Algorithm} (a : t) (limit : Z)
  : option (list Entry.t) :=
  upTo limit (sort.Slice _ slowerThan (Log.Entries (HAR.Log (har a)))).







End Analyzer.

(** ** Waterfall layout (package [tui])

    [RenderWaterfall] and [renderRequestBar] return styled text.  What is
    embedded is the layout they compute on the way: the time window, the
    scale, and for each bar its start column and its width. *)

Module TimelineRenderer.

Import GoInt.

Record t := mk { width : Z;
                 height : Z;
                 pixelScale : float;
                 startTime : time.Time;
                 endTime : time.Time }.

Definition NewTimelineRenderer (width height : Z) : t :=
  mk width height 0 time.zero time.zero.

(** The loop of [RenderWaterfall] over the events, on the pair
    ([tr.startTime], [tr.endTime]). *)
Definition boundsBody (b : time.Time * time.Time) (event : TimelineEvent.t)
  : time.Time * time.Time :=
  let (startTime, endTime) := b in
  let startTime' :=
    if time.Before (TimelineEvent.StartTime event) startTime
    then TimelineEvent.StartTime event else startTime in
  let eventEnd :=
    time.Add (TimelineEvent.StartTime event)
             (time.of_float_ms (TimelineEvent.Duration event)) in
  let endTime' := if time.After eventEnd endTime then eventEnd else endTime in
  (startTime', endTime').

Definition timeBounds (first : TimelineEvent.t) (timeline : list TimelineEvent.t)
  : time.Time * time.Time :=
  fold_left boundsBody timeline
    (TimelineEvent.StartTime first, TimelineEvent.StartTime first).

(** [tr.endTime.Sub(tr.startTime).Seconds() * 1000]. *)
Definition spanMs (startTime endTime : time.Time) : float :=
  PrimFloat.mul (time.Seconds (time.Sub endTime startTime)) 1000.

(** [totalDuration] after [if totalDuration <= 0 { totalDuration = 1000 }]. *)
Definition totalDuration (startTime endTime : time.Time) : float :=
  let totalDuration := spanMs startTime endTime in
  if PrimFloat.leb totalDuration 0 then 1000%float else totalDuration.

(** [chartWidth] after [if chartWidth < 20 { chartWidth = 20 }]. *)
Definition chartWidth (tr : t) : Z :=
  let chartWidth := sub64 (width tr) 35 in
  if chartWidth <? 20 then 20 else chartWidth.

(** The renderer as [RenderWaterfall] leaves it before it draws, for a
    timeline that starts with [first]. *)
Definition prepare (tr : t) (first : TimelineEvent.t)
  (timeline : list TimelineEvent.t) : t :=
  let (startTime, endTime) := timeBounds first timeline in
  {| width := width tr;
     height := height tr;
     startTime := startTime;
     endTime := endTime;
     pixelScale :=
       PrimFloat.div (totalDuration startTime endTime)
                     (GoFloat.of_int (chartWidth tr)) |}.

(** A bar: the final values of [startPos] and [duration] in
    [renderRequestBar]. *)
Record bar := mkBar { startPos : Z; duration : Z }.

(** The two clipping tests of [renderRequestBar], on the converted
    start column and width. *)
Definition clip (startPos0 duration0 chartWidth : Z) : bar :=
  let duration1 := if duration0 <? 1 then 1 else duration0 in
  let startPos1 :=
    if chartWidth <=? startPos0 then sub64 chartWidth 1 else startPos0 in
  let duration2 :=
    if chartWidth <? add64 startPos1 duration1
    then sub64 chartWidth startPos1 else duration1 in
  mkBar startPos1 duration2.

Definition renderRequestBar (tr : t) (event : TimelineEvent.t)
  (chartWidth : Z) : bar :=
  let requestStart :=
    PrimFloat.mul
      (time.Seconds (time.Sub (TimelineEvent.StartTime event) (startTime tr)))
      1000 in
  let requestDuration := TimelineEvent.Duration event in
  let startPos := GoFloat.to_int64 (PrimFloat.div requestStart (pixelScale tr)) in
  let duration := GoFloat.to_int64 (PrimFloat.div requestDuration (pixelScale tr)) in
  clip startPos duration chartWidth.

(** The bars [RenderWaterfall] draws, top to bottom; [None] stands for
    the answer "No timeline data available" to an empty timeline. *)
Definition RenderWaterfall (tr : t) (timeline : list TimelineEvent.t)
  : option (list bar) :=
  match timeline with
  | [] => None
  | first :: _ =>
      let tr' := prepare tr first timeline in
      let maxEntries := sub64 (height tr) 8 in
      let entriesToShow := Z.of_nat (List.length timeline) in
      let entriesToShow :=
        if maxEntries <? entriesToShow then maxEntries else entriesToShow in
      Some (map (fun event => renderRequestBar tr' event (chartWidth tr))
                (firstn (Z.to_nat entriesToShow) timeline))
  end.

(** A rune is its code point. *)
Definition rune : Type := Z.

Definition space : rune := 32.        (* ' ' *)
Definition fullBlock : rune := 9608.  (* the bar character of [getBarStyle] *)
Definition crossMark : rune := 10007. (* the marker of an error *)
Definition redoMark : rune := 8635.   (* the marker of a redirect *)
Definition checkMark : rune := 10003. (* the marker of a success *)

(** [timeline[i] = r]; a panic when [i] is out of range. *)
Definition setRune (row : list rune) (i : Z) (r : rune) : option (list rune) :=
  if (i <? 0) || (Z.of_nat (List.length row) <=? i) then None
  else Some (firstn (Z.to_nat i) row ++ r :: skipn (S (Z.to_nat i)) row).

(** [for i := ...; i < stop && i < chartWidth; i++ { timeline[i] = barChar }]
    from the current [i] on.  [fuel] bounds the iterations left; the loop
    is run with the [chartWidth - startPos] iterations it can make at
    most, each raising [i] toward [chartWidth]. *)
Fixpoint fillBar (fuel : nat) (row : list rune) (i stop chartWidth : Z)
  : option (list rune) :=
  if (i <? stop) && (i <? chartWidth) then
    match fuel with
    | O => Some row
    | S fuel' =>
        match setRune row i fullBlock with
        | None => None
        | Some row' => fillBar fuel' row' (add64 i 1) stop chartWidth
        end
    end
  else Some row.

(** The marker that follows the bar. *)
Definition marker (status : Z) : rune :=
  if 400 <=? status then crossMark
  else if 300 <=? status then redoMark
  else checkMark.

(** The slice of runes [renderRequestBar] draws for a bar: blanks, the
    bar, the marker after it if there is room.  [None] is a panic. *)
Definition drawBar (b : bar) (status chartWidth : Z) : option (list rune) :=
  let timeline := repeat space (Z.to_nat chartWidth) in
  let stop := add64 (startPos b) (duration b) in
  match fillBar (Z.to_nat (chartWidth - startPos b)) timeline (startPos b) stop
                chartWidth with
  | None => None
  | Some timeline =>
      if stop <? chartWidth then setRune timeline stop (marker status)
      else Some timeline
  end.

End TimelineRenderer.

(** ** Table helpers and the filter (package [tui]) *)

Module tui.

Import GoInt.

(** [truncateURL] and [truncateValue] have the same body:
    [if len(url) <= maxLen { return url }; return url[:maxLen-3] + "..."].
    The slice expression panics when its bound is negative. *)
Definition truncateURL (url : string) (maxLen : Z) : option string :=
  if Z.of_nat (String.length url) <=? maxLen then Some url
  else
    let k := sub64 maxLen 3 in
    if (k <? 0) || (Z.of_nat (String.length url) <? k) then None
    else Some (String.substring 0 (Z.to_nat k) url ++ "...")%string.

Definition truncateValue (value : string) (maxLen : Z) : option string :=
  truncateURL value maxLen.

(** [c + ('a' - 'A')] on a byte between 'A' and 'Z'. *)
Definition toLower (c : ascii) : ascii :=
  if (N_of_ascii "A" <=? N_of_ascii c)%N && (N_of_ascii c <=? N_of_ascii "Z")%N
  then ascii_of_N ((N_of_ascii c + 32) mod 256)
  else c.

(** The bytes [a[i]] and [b[i]] are read below the common length. *)
Definition equalIgnoreCase (a b : string) : bool :=
  if negb (String.length a =? String.length b)%nat then false
  else
    forallb
      (fun i =>
         match String.get i a, String.get i b with
         | Some x, Some y => Ascii.eqb (toLower x) (toLower y)
         | _, _ => false
         end)
      (seq 0 (String.length a)).

(** [for i := 0; i <= len(s)-len(substr); i++]: no iteration when the
    bound is negative. *)
Definition findSubstring (s substr : string) : bool :=
  let last := Z.of_nat (String.length s) - Z.of_nat (String.length substr) in
  existsb
    (fun i => equalIgnoreCase (String.substring i (String.length substr) s) substr)
    (seq 0 (Z.to_nat (last + 1))).

Definition contains (s substr : string) : bool :=
  (String.length substr <=? String.length s)%nat
  && ((s =? substr)%string
      || (String.length substr =? 0)%nat
      || findSubstring s substr).

Definition matchesFilter (entry : Entry.t) (filter : string) : bool :=
  contains (Request.URL (Entry.Request entry)) filter
  || contains (Request.Method (Entry.Request entry)) filter
  || contains (Content.MimeType (Response.Content (Entry.Response entry))) filter.

(** The entries [filterEntries] leaves in [m.entries], from the entries
    of the current file. *)
Definition filterEntries (fileEntries : list Entry.t) (filterText : string)
  : list Entry.t :=
  if (filterText =? "")%string then fileEntries
  else
    fold_left
      (fun filtered entry =>
         if matchesFilter entry filterText then filtered ++ [entry] else filtered)
      fileEntries [].

End tui.

(** ** Package [fmt]

    [%d] is computed; the rendering of a [float64] by the verb [%.1f]
    belongs to the Go library and is a parameter of the embedding. *)

Module fmt.

Class Float1 : Type := { f1 : float -> string }.

(** [fmt.Sprintf("%d", n)]. *)
Definition d (n : Z) : string := NilZero.string_of_int (Z.to_int n).

(** [num / den] rounded to the nearest integer, ties to even, for
    positive [num] and [den]. *)
Definition roundHalfEven (num den : Z) : Z :=
  let q := num / den in
  let r := num mod den in
  if 2 * r <? den then q
  else if den <? 2 * r then q + 1
  else if Z.even q then q else q + 1.

(** An implementation of the verb, for running the functions on
    examples: the decimal expansion of the float, correctly rounded to
    one digit after the point. *)
Definition fixed1 (f : float) : string :=
  match Prim2SF f with
  | S754_nan => "NaN"
  | S754_infinity s => if s then "-Inf" else "+Inf"
  | S754_zero s => if s then "-0.0" else "0.0"
  | S754_finite s m e =>
      let tenths :=
        if 0 <=? e then Z.pos m * 10 * 2 ^ e
        else roundHalfEven (Z.pos m * 10) (2 ^ (- e)) in
      ((if s then "-" else "")
       ++ d (tenths / 10) ++ "." ++ d (tenths mod 10))%string
  end.

Definition fixed : Float1 := {| f1 := fixed1 |}.

End fmt.

(** ** Comparator ([internal/har/comparator.go]) *)

Module MetricDifference.
(** [Values] holds [interface{}] values, all of them strings. *)
Record t := mk { Name : string;
                 Values : list string;
                 Changes : list string;
                 Improvements : list bool }.
End MetricDifference.

Module ComparisonSummary.
Record t := mk { BetterCount : Z;
                 WorseCount : Z;
                 UnchangedCount : Z;
                 TotalMetrics : Z }.

Definition zero : t := mk 0 0 0 0.
End ComparisonSummary.

Module Comparison.
Record t := mk { Files : list string;
                 Metrics : list Metrics.t;
                 Differences : list MetricDifference.t;
                 Summary : ComparisonSummary.t }.
End Comparison.

Module Comparator.

Import GoInt.
Local Open Scope string_scope.

(** The slice [metrics] holds pointers, none of them [nil]: the callers
    fill it with results of [CalculateMetrics]. *)
Record t := mk { files : list string; metrics : list Metrics.t }.

Definition NewComparator (files : list string) (metrics : list Metrics.t) : t :=
  mk files metrics.

(** Extractor functions *)
Definition extractPageLoadTime (m : Metrics.t) : float := Metrics.PageLoadTime m.
Definition extractTTFB (m : Metrics.t) : float := Metrics.TTFB m.
Definition extractDNSTime (m : Metrics.t) : float := Metrics.DNSTime m.
Definition extractConnectTime (m : Metrics.t) : float := Metrics.ConnectTime m.
Definition extractSSLTime (m : Metrics.t) : float := Metrics.SSLTime m.
Definition extractTotalRequests (m : Metrics.t) : Z := Metrics.TotalRequests m.
Definition extractErrorRequests (m : Metrics.t) : Z := Metrics.ErrorRequests m.
Definition extractThirdPartyRequests (m : Metrics.t) : Z :=
  Metrics.ThirdPartyRequests m.
Definition extractCacheHitRatio (m : Metrics.t) : float := Metrics.CacheHitRatio m.
Definition extractTotalSize (m : Metrics.t) : Z := Metrics.TotalSize m.

(** Improvement detection *)
Definition timingMetrics : list string :=
  [ "Total Load Time"; "Time to First Byte"; "Average DNS Time";
    "Average Connect Time"; "Average SSL Time" ].

Definition isImprovementFloat (metricName : string) (change : float) : bool :=
  if existsb (fun timing => metricName =? timing) timingMetrics
  then PrimFloat.ltb change 0
  else if metricName =? "Cache Hit Ratio"
  then PrimFloat.ltb 0 change
  else false.

Definition isImprovementInt (metricName : string) (change : Z) : bool :=
  if (metricName =? "Error Requests") || (metricName =? "Third-party Requests")
  then (change <? 0)%Z
  else false.

(** What one iteration of a compare loop stores at index [i] of the
    slices [values], [changes] and [improvements]. *)
Record column := mkColumn { value : string; change : string; improvement : bool }.

(** The three slices are made with [len(c.metrics)] slots, and the
    iteration for index [i] fills slot [i] of each: the slices are the
    index-wise images of [c.metrics]. *)
Definition eachMetric (c : t) (body : nat -> Metrics.t -> column) : list column :=
  map (fun im => body (fst im) (snd im))
      (combine (seq 0 (List.length (metrics c))) (metrics c)).

Definition difference (name : string) (columns : list column)
  : MetricDifference.t :=
  {| MetricDifference.Name := name;
     MetricDifference.Values := map value columns;
     MetricDifference.Changes := map change columns;
     MetricDifference.Improvements := map improvement columns |}.

(** [c.metrics[0]], read only at an index [i > 0], hence in a slice
    that is not empty. *)
Definition baseline (c : t) (metric : Metrics.t) : Metrics.t :=
  hd metric (metrics c).

Section Formatting.

Context `{fmt.Float1}.

Definition formatSize (size : Z) : string :=
  if (size <? 1024)%Z then fmt.d size ++ "B"
  else if (size <? 1024 * 1024)%Z
  then fmt.f1 (PrimFloat.div (GoFloat.of_int size) 1024) ++ "KB"
  else fmt.f1 (PrimFloat.div (GoFloat.of_int size) (GoFloat.of_int (1024 * 1024)))
       ++ "MB".

(** The bodies of the loops of [compareFloat], [compareInt] and
    [compareSize], at index [i] and element [metric] of [c.metrics]. *)
Definition floatColumn (c : t) (name unit : string)
  (extractor : Metrics.t -> float) (i : nat) (metric : Metrics.t) : column :=
  let value := extractor metric in
  let shown := fmt.f1 value ++ unit in
  if (0 <? i)%nat then
    let baseValue := extractor (baseline c metric) in
    let change := PrimFloat.sub value baseValue in
    let changePercent :=
      if negb (PrimFloat.eqb baseValue 0)
      then PrimFloat.mul (PrimFloat.div change baseValue) 100
      else 0%float in
    if PrimFloat.ltb (PrimFloat.abs changePercent) GoFloat.one_tenth
    then mkColumn shown "No change" false
    else if PrimFloat.ltb 0 changePercent
    then mkColumn shown ("+" ++ fmt.f1 changePercent ++ "%")
                  (isImprovementFloat name change)
    else mkColumn shown (fmt.f1 changePercent ++ "%")
                  (isImprovementFloat name change)
  else mkColumn shown "Baseline" false.

Definition intColumn (c : t) (name unit : string)
  (extractor : Metrics.t -> Z) (i : nat) (metric : Metrics.t) : column :=
  let value := extractor metric in
  let shown :=
    if negb (unit =? "") then fmt.d value ++ " " ++ unit
    else fmt.d value in
  if (0 <? i)%nat then
    let baseValue := extractor (baseline c metric) in
    let change := sub64 value baseValue in
    let changePercent :=
      if negb (baseValue =? 0)%Z
      then PrimFloat.mul
             (PrimFloat.div (GoFloat.of_int change) (GoFloat.of_int baseValue))
             100
      else 0%float in
    if (change =? 0)%Z
    then mkColumn shown "No change" false
    else if (0 <? change)%Z
    then mkColumn shown
           ("+" ++ fmt.d change ++ " (+" ++ fmt.f1 changePercent ++ "%)")
           (isImprovementInt name change)
    else mkColumn shown
           (fmt.d change ++ " (" ++ fmt.f1 changePercent ++ "%)")
           (isImprovementInt name change)
  else mkColumn shown "Baseline" false.

Definition sizeColumn (c : t) (extractor : Metrics.t -> Z) (i : nat)
  (metric : Metrics.t) : column :=
  let value := extractor metric in
  let shown := formatSize value in
  if (0 <? i)%nat then
    let baseValue := extractor (baseline c metric) in
    let change := sub64 value baseValue in
    let changePercent :=
      if negb (baseValue =? 0)%Z
      then PrimFloat.mul
             (PrimFloat.div (GoFloat.of_int change) (GoFloat.of_int baseValue))
             100
      else 0%float in
    if (change =? 0)%Z
    then mkColumn shown "No change" false
    else if (0 <? change)%Z
    then mkColumn shown
           ("+" ++ formatSize change ++ " (+" ++ fmt.f1 changePercent ++ "%)")
           (change <? 0)%Z
    else mkColumn shown
           ("-" ++ formatSize (neg64 change) ++ " (" ++ fmt.f1 changePercent ++ "%)")
           (change <? 0)%Z
  else mkColumn shown "Baseline" false.

Definition compareFloat (c : t) (name unit : string)
  (extractor : Metrics.t -> float) : MetricDifference.t :=
  difference name (eachMetric c (floatColumn c name unit extractor)).

Definition compareInt (c : t) (name unit : string)
  (extractor : Metrics.t -> Z) : MetricDifference.t :=
  difference name (eachMetric c (intColumn c name unit extractor)).

Definition compareSize (c : t) (name : string)
  (extractor : Metrics.t -> Z) : MetricDifference.t :=
  difference name (eachMetric c (sizeColumn c extractor)).

End Formatting.

(** The counters of [calculateSummary]; a counter goes up by one per
    column at most and never wraps. *)
Record counters := mkCounters { better : Z; worse : Z; unchanged : Z }.

Inductive verdict : Type := Better | Worse | Unchanged.

Definition verdict_eqb (v w : verdict) : bool :=
  match v, w with
  | Better, Better | Worse, Worse | Unchanged, Unchanged => true
  | _, _ => false
  end.

(** The test of the inner loop of [calculateSummary] at column [i] of
    [diff]: which of the three counters goes up.  [diff.Changes[i]]
    panics when [i] is out of range; [diff.Improvements[i]] is read only
    when the change is not "No change". *)
Definition classify (diff : MetricDifference.t) (i : nat) : option verdict :=
  match nth_error (MetricDifference.Changes diff) i with
  | None => None
  | Some ch =>
      if ch =? "No change" then Some Unchanged
      else match nth_error (MetricDifference.Improvements diff) i with
           | None => None
           | Some true => Some Better
           | Some false => Some Worse
           end
  end.

Definition count (v : verdict) (n : counters) : counters :=
  match v with
  | Unchanged => mkCounters (better n) (worse n) (unchanged n + 1)
  | Better => mkCounters (better n + 1) (worse n) (unchanged n)
  | Worse => mkCounters (better n) (worse n + 1) (unchanged n)
  end.

(** The body of the inner loop. *)
Definition tally (diff : MetricDifference.t) (n : counters) (i : nat)
  : option counters :=
  match classify diff i with
  | Some v => Some (count v n)
  | None => None
  end.

(** [for i := 1; i < len(diff.Improvements); i++]. *)
Definition tallyDifference (acc : option counters) (diff : MetricDifference.t)
  : option counters :=
  fold_left
    (fun acc i => match acc with Some n => tally diff n i | None => None end)
    (seq 1 (List.length (MetricDifference.Improvements diff) - 1))
    acc.

Definition calculateSummary (differences : list MetricDifference.t)
  : option ComparisonSummary.t :=
  match fold_left tallyDifference differences (Some (mkCounters 0 0 0)) with
  | Some n =>
      Some {| ComparisonSummary.BetterCount := better n;
              ComparisonSummary.WorseCount := worse n;
              ComparisonSummary.UnchangedCount := unchanged n;
              ComparisonSummary.TotalMetrics := better n + worse n + unchanged n |}
  | None => None
  end.

(** The slice literal of [Compare], under its comment "Compare key
    metrics". *)
Definition keyMetrics `{fmt.Float1} (c : t) : list MetricDifference.t :=
  [ compareFloat c "Total Load Time" "ms" extractPageLoadTime;
    compareFloat c "Time to First Byte" "ms" extractTTFB;
    compareFloat c "Average DNS Time" "ms" extractDNSTime;
    compareFloat c "Average Connect Time" "ms" extractConnectTime;
    compareFloat c "Average SSL Time" "ms" extractSSLTime;
    compareInt c "Total Requests" "" extractTotalRequests;
    compareInt c "Error Requests" "" extractErrorRequests;
    compareInt c "Third-party Requests" "" extractThirdPartyRequests;
    compareFloat c "Cache Hit Ratio" "%" extractCacheHitRatio;
    compareSize c "Total Transfer Size" extractTotalSize ].

Definition Compare `{fmt.Float1} (c : t) : option Comparison.t :=
  if (List.length (metrics c) <? 2)%nat
  then Some {| Comparison.Files := files c;
               Comparison.Metrics := metrics c;
               Comparison.Differences := [];
               Comparison.Summary := ComparisonSummary.zero |}
  else
    let differences := keyMetrics c in
    match calculateSummary differences with
    | Some summary =>
        Some {| Comparison.Files := files c;
                Comparison.Metrics := metrics c;
                Comparison.Differences := differences;
                Comparison.Summary := summary |}
    | None => None
    end.

End Comparator.

(** ** The report summary (package [report]) *)

Module ReportSummary.
Record t := mk { TotalFiles : Z;
                 TotalRequests : Z;
                 TotalErrors : Z;
                 AverageLoadTime : float;
                 AverageTTFB : float;
                 TotalTransferMB : float }.
End ReportSummary.

Module Generator.

Import GoInt.

Record t := mk { harFiles : list HAR.t;
                 analyzers : list Analyzer.t;
                 comparison : option Comparison.t }.

Definition NewGenerator (harFiles : list HAR.t) (analyzers : list Analyzer.t)
    (comparison : option Comparison.t) : t :=
  mk harFiles analyzers comparison.

(** The local variables of [calculateSummary] that its loop updates. *)
Record totals := mkTotals { totalRequests : Z;
                            totalErrors : Z;
                            totalLoadTime : float;
                            totalTTFB : float;
                            totalTransferBytes : float }.

Definition totals0 : totals := mkTotals 0 0 0 0 0.

(** One iteration of [for _, analyzer := range g.analyzers]. *)
Definition loopBody (v : totals) (analyzer : Analyzer.t) : totals :=
  let metrics := Analyzer.CalculateMetrics analyzer in
  {| totalRequests := add64 (totalRequests v) (Metrics.TotalRequests metrics);
     totalErrors := add64 (totalErrors v) (Metrics.ErrorRequests metrics);
     totalLoadTime := PrimFloat.add (totalLoadTime v) (Metrics.PageLoadTime metrics);
     totalTTFB := PrimFloat.add (totalTTFB v) (Metrics.TTFB metrics);
     totalTransferBytes :=
       PrimFloat.add (totalTransferBytes v)
                     (GoFloat.of_int (Metrics.TotalSize metrics)) |}.

Definition calculateSummary (g : t) : ReportSummary.t :=
  let totalFiles := Z.of_nat (List.length (harFiles g)) in
  match analyzers g with
  | [] => ReportSummary.mk totalFiles 0 0 0 0 0
  | _ :: _ =>
      let v := fold_left loopBody (analyzers g) totals0 in
      let fileCount := GoFloat.of_int (Z.of_nat (List.length (analyzers g))) in
      {| ReportSummary.TotalFiles := totalFiles;
         ReportSummary.TotalRequests := totalRequests v;
         ReportSummary.TotalErrors := totalErrors v;
         ReportSummary.AverageLoadTime := PrimFloat.div (totalLoadTime v) fileCount;
         ReportSummary.AverageTTFB := PrimFloat.div (totalTTFB v) fileCount;
         ReportSummary.TotalTransferMB :=
           PrimFloat.div (totalTransferBytes v) (PrimFloat.mul 1024 1024) |}
  end.

End Generator.

(** ** Vocabulary of the properties *)

Module Spec.

Import GoInt.

(** The [int] and [int64] fields of a [Metrics] hold 64-bit values. *)
Definition wfMetrics (m : Metrics.t) : Prop :=
  in_int64 (Metrics.TotalRequests m)
  /\ in_int64 (Metrics.TotalSize m)
  /\ in_int64 (Metrics.ThirdPartyRequests m)
  /\ in_int64 (Metrics.ErrorRequests m).

(** The sum, in slice order and from zero, of a phase over the entries
    where the phase is positive. *)
Definition sumPositive (phase : Timings.t -> Z) (entries : list Entry.t)
  : float :=
  fold_left PrimFloat.add
    (map (fun e => GoFloat.of_int (phase (Entry.Timings e)))
         (filter (fun e => 0 <? phase (Entry.Timings e)) entries))
    0%float.

(** The projections of the entries, each with its index, in input
    order. *)
Definition projections (entries : list Entry.t) : list TimelineEvent.t :=
  map (fun ie => Analyzer.eventOf (Z.of_nat (fst ie)) (snd ie))
      (combine (seq 0 (List.length entries)) entries).

(** The eight values of an event: index, URL, method, status, start
    time, duration, size and content type. *)
Definition fields : Type :=
  (Z * string * string * Z * time.Time * float * Z * string)%type.

(** The values an event carries. *)
Definition shown (ev : TimelineEvent.t) : fields :=
  (TimelineEvent.Index ev, TimelineEvent.URL ev, TimelineEvent.Method ev,
   TimelineEvent.Status ev, TimelineEvent.StartTime ev,
   TimelineEvent.Duration ev, TimelineEvent.Size ev,
   TimelineEvent.ContentType ev).

(** The values entry number [i] holds: its position, the URL and the
    method of its request, the status of its response, its start time,
    its time, the size and the MIME type of the content of its
    response. *)
Definition held (i : nat) (entry : Entry.t) : fields :=
  (Z.of_nat i, Request.URL (Entry.Request entry),
   Request.Method (Entry.Request entry),
   Response.Status (Entry.Response entry), Entry.StartedDateTime entry,
   Entry.Time entry, Content.Size (Response.Content (Entry.Response entry)),
   Content.MimeType (Response.Content (Entry.Response entry))).

(** The values of all the entries, in input order. *)
Definition heldAll (entries : list Entry.t) : list fields :=
  map (fun ie => held (fst ie) (snd ie))
      (combine (seq 0 (List.length entries)) entries).

(** Ascending start times. *)
Definition ByStartTime : list TimelineEvent.t -> Prop :=
  StronglySorted
    (fun x y => TimelineEvent.StartTime x <= TimelineEvent.StartTime y).

(** Ascending start times, with equal start times in the order of the
    original indices. *)
Definition ByStartTimeThenIndex : list TimelineEvent.t -> Prop :=
  StronglySorted
    (fun x y =>
       TimelineEvent.StartTime x < TimelineEvent.StartTime y
       \/ (TimelineEvent.StartTime x = TimelineEvent.StartTime y
           /\ TimelineEvent.Index x < TimelineEvent.Index y)).




(** A bar that stays inside a chart of [chartWidth] columns. *)
Definition inside (chartWidth : Z) (b : TimelineRenderer.bar) : Prop :=
  TimelineRenderer.startPos b <= chartWidth
  /\ TimelineRenderer.startPos b + TimelineRenderer.duration b <= chartWidth
  /\ 1 <= TimelineRenderer.duration b.



(** The counter a filled column goes to. *)
Definition verdictOf (col : Comparator.column) : Comparator.verdict :=
  if (Comparator.change col =? "No change")%string then Comparator.Unchanged
  else if Comparator.improvement col then Comparator.Better
  else Comparator.Worse.

(** The columns [calculateSummary] visits: every difference with every
    index from 1 on. *)
Definition cells (differences : list MetricDifference.t)
  : list (MetricDifference.t * nat) :=
  flat_map
    (fun diff =>
       map (pair diff)
           (seq 1 (List.length (MetricDifference.Improvements diff) - 1)))
    differences.

(** How many of the columns [cells] go to the counter [v]. *)
Definition hits (v : Comparator.verdict)
  (cells : list (MetricDifference.t * nat)) : Z :=
  Z.of_nat
    (List.length
       (filter
          (fun cell =>
             match Comparator.classify (fst cell) (snd cell) with
             | Some w => Comparator.verdict_eqb v w
             | None => false
             end)
          cells)).

Definition tallied (v : Comparator.verdict)
  (differences : list MetricDifference.t) : Z :=
  hits v (cells differences).

(** The inner loop body on one column, a panic carried along. *)
Definition tallyCell (acc : option Comparator.counters)
  (cell : MetricDifference.t * nat) : option Comparator.counters :=
  match acc with
  | Some n => Comparator.tally (fst cell) n (snd cell)
  | None => None
  end.

(** Column [i] of [diff] is one of the columns the summary of [cmp]
    counts, and it is counted as [v]. *)
Definition countedAs (cmp : Comparison.t) (diff : MetricDifference.t)
  (i : nat) (v : Comparator.verdict) : Prop :=
  In (diff, i) (cells (Comparison.Differences cmp))
  /\ Comparator.classify diff i = Some v
  /\ ComparisonSummary.BetterCount (Comparison.Summary cmp)
     = tallied Comparator.Better (Comparison.Differences cmp)
  /\ ComparisonSummary.WorseCount (Comparison.Summary cmp)
     = tallied Comparator.Worse (Comparison.Differences cmp)
  /\ ComparisonSummary.UnchangedCount (Comparison.Summary cmp)
     = tallied Comparator.Unchanged (Comparison.Differences cmp).

(** The rows of [Compare] on [float64] metrics: position in
    [Differences], name, unit, extractor. *)
Definition floatRows : list (nat * string * string * (Metrics.t -> float)) :=
  [ (0%nat, "Total Load Time", "ms", Comparator.extractPageLoadTime);
    (1%nat, "Time to First Byte", "ms", Comparator.extractTTFB);
    (2%nat, "Average DNS Time", "ms", Comparator.extractDNSTime);
    (3%nat, "Average Connect Time", "ms", Comparator.extractConnectTime);
    (4%nat, "Average SSL Time", "ms", Comparator.extractSSLTime);
    (8%nat, "Cache Hit Ratio", "%", Comparator.extractCacheHitRatio) ]%string.

(** The rows on [int] and [int64] metrics. *)
Definition integerRows : list (nat * string * (Metrics.t -> Z)) :=
  [ (5%nat, "Total Requests", Comparator.extractTotalRequests);
    (6%nat, "Error Requests", Comparator.extractErrorRequests);
    (7%nat, "Third-party Requests", Comparator.extractThirdPartyRequests);
    (9%nat, "Total Transfer Size", Comparator.extractTotalSize) ]%string.

(** The exact sum of the content sizes. *)
Definition sumSizes (entries : list Entry.t) : Z :=
  fold_right Z.add 0
    (map (fun e => Content.Size (Response.Content (Entry.Response e))) entries).


(** The entries of all the files of a report, in the order of the files. *)
Definition allEntries (analyzers : list Analyzer.t) : list Entry.t :=
  flat_map (fun a => Log.Entries (HAR.Log (Analyzer.har a))) analyzers.

(** An entry whose response status is 400 or more. *)
Definition isError (e : Entry.t) : bool :=
  400 <=? Response.Status (Entry.Response e).

(** The lower-case letter of an upper-case ASCII letter; any other byte
    is left as it is. *)
Definition lowerLetter (c : ascii) : ascii :=
  match c with
  | "A" => "a" | "B" => "b" | "C" => "c" | "D" => "d" | "E" => "e"
  | "F" => "f" | "G" => "g" | "H" => "h" | "I" => "i" | "J" => "j"
  | "K" => "k" | "L" => "l" | "M" => "m" | "N" => "n" | "O" => "o"
  | "P" => "p" | "Q" => "q" | "R" => "r" | "S" => "s" | "T" => "t"
  | "U" => "u" | "V" => "v" | "W" => "w" | "X" => "x" | "Y" => "y"
  | "Z" => "z"
  | _ => c
  end%char.

(** The string with its upper-case ASCII letters in lower case. *)
Fixpoint lower (s : string) : string :=
  match s with
  | EmptyString => EmptyString
  | String c s' => String (lowerLetter c) (lower s')
  end.

(** A float that is neither a NaN nor an infinity. *)
Definition finite (x : float) : Prop :=
  PrimFloat.is_nan x = false /\ PrimFloat.is_infinity x = false.

(** The six [float64] fields that [Compare] reads hold finite values. *)
Definition finiteMetrics (m : Metrics.t) : Prop :=
  finite (Metrics.PageLoadTime m) /\ finite (Metrics.TTFB m)
  /\ finite (Metrics.DNSTime m) /\ finite (Metrics.ConnectTime m)
  /\ finite (Metrics.SSLTime m) /\ finite (Metrics.CacheHitRatio m).

(** The names of the differences of [Compare], in order. *)
Definition rowNames : list string :=
  [ "Total Load Time"; "Time to First Byte"; "Average DNS Time";
    "Average Connect Time"; "Average SSL Time"; "Total Requests";
    "Error Requests"; "Third-party Requests"; "Cache Hit Ratio";
    "Total Transfer Size" ]%string.

(** The integer rows on which a lower value is an improvement. *)
Definition lowerIsBetterRows : list (nat * string * (Metrics.t -> Z)) :=
  [ (6%nat, "Error Requests", Comparator.extractErrorRequests);
    (7%nat, "Third-party Requests", Comparator.extractThirdPartyRequests);
    (9%nat, "Total Transfer Size", Comparator.extractTotalSize) ]%string.

(** Two metrics with the same value in each of the ten fields that
    [Compare] reads. *)
Definition sameTracked (m m' : Metrics.t) : Prop :=
  Metrics.PageLoadTime m = Metrics.PageLoadTime m'
  /\ Metrics.TTFB m = Metrics.TTFB m'
  /\ Metrics.DNSTime m = Metrics.DNSTime m'
  /\ Metrics.ConnectTime m = Metrics.ConnectTime m'
  /\ Metrics.SSLTime m = Metrics.SSLTime m'
  /\ Metrics.TotalRequests m = Metrics.TotalRequests m'
  /\ Metrics.ErrorRequests m = Metrics.ErrorRequests m'
  /\ Metrics.ThirdPartyRequests m = Metrics.ThirdPartyRequests m'
  /\ Metrics.CacheHitRatio m = Metrics.CacheHitRatio m'
  /\ Metrics.TotalSize m = Metrics.TotalSize m'.

(** A difference with one column per file, the first of them the
    baseline. *)
Definition wellShaped (n : nat) (diff : MetricDifference.t) : Prop :=
  List.length (MetricDifference.Values diff) = n
  /\ List.length (MetricDifference.Changes diff) = n
  /\ List.length (MetricDifference.Improvements diff) = n
  /\ nth_error (MetricDifference.Changes diff) 0 = Some "Baseline"%string
  /\ nth_error (MetricDifference.Improvements diff) 0 = Some false.

End Spec.

(** ** Sample inputs *)

Module Samples.

Local Open Scope string_scope.

(** A successful GET of 512 bytes of HTML that starts at [start]
    nanoseconds, lasts [ms] milliseconds and waited [wait] milliseconds,
    after a DNS lookup of [dns] milliseconds. *)
Definition entry (start : time.Time) (ms : float) (wait dns : Z) : Entry.t :=
  {| Entry.StartedDateTime := start;
     Entry.Time := ms;
     Entry.Request := Request.mk "GET" "https://example.org/index.html" "HTTP/1.1";
     Entry.Response := Response.mk 200 "OK" (Content.mk 512 "text/html");
     Entry.Cache := Cache.mk None None;
     Entry.Timings := Timings.mk 0 dns (-1) 0 wait 0 (-1) |}.

Definition analyzer (entries : list Entry.t) : Analyzer.t :=
  Analyzer.NewAnalyzer (HAR.mk (Log.mk "1.2" [] entries)).

(** A response served at once, then one that waited 120 ms. *)
Definition cachedThenSlow : Analyzer.t :=
  analyzer [ entry 0 1 0 0; entry 1000000 150 120 12 ].

(** A single response served at once. *)
Definition cachedOnly : Analyzer.t := analyzer [ entry 0 1 0 0 ].

(** Two requests that start at the same instant. *)
Definition simultaneous : Analyzer.t :=
  analyzer [ entry 5000000 20 8 0; entry 5000000 30 9 0 ].

(** Fifty requests given latest first, one second apart, but for the
    first two, which start at the same instant: entries 0 and 1 start
    at 49 s, entry 2 at 48 s, and so on down to entry 49 at 1 s. *)
Definition descending : Analyzer.t :=
  analyzer
    (entry 49000000000 20 8 0
     :: map (fun i => entry (Z.of_nat (50 - i) * 1000000000) 20 8 0)
            (seq 1 49)).

(** Three requests, given latest first. *)
Definition latestFirst : Analyzer.t :=
  analyzer [ entry 9000000 20 8 0; entry 5000000 30 9 3; entry 1000000 10 4 0 ].

Definition event (index : Z) (start : time.Time) (ms : float) : TimelineEvent.t :=
  Analyzer.eventOf index (entry start ms 0 0).


(** A renderer for 1072 columns less the frame: a chart of 1033
    columns. *)
Definition wideRenderer : TimelineRenderer.t :=
  TimelineRenderer.NewTimelineRenderer 1068 40.

(** 8935141660703064064 ms, a [float64] and an [int64]. *)
Definition aeon : float := GoFloat.of_int (31 * 2 ^ 58).

(** An instantaneous request, and 1.00071875 s later a request whose
    [time] is [aeon]. *)
Definition overlong : list TimelineEvent.t :=
  [ event 0 0 0; event 1 1000718750 aeon ].

Definition metrics (requests errors : Z) (load : float) : Metrics.t :=
  {| Metrics.TotalRequests := requests;
     Metrics.TotalTime := 900;
     Metrics.TotalSize := 40960;
     Metrics.TTFB := 80;
     Metrics.PageLoadTime := load;
     Metrics.DNSTime := 0;
     Metrics.ConnectTime := 4;
     Metrics.SSLTime := 6;
     Metrics.FirstContentfulPaint := 0;
     Metrics.LargestContentfulPaint := 0;
     Metrics.CacheHitRatio := 25;
     Metrics.ThirdPartyRequests := 3;
     Metrics.ErrorRequests := errors |}.

(** A baseline without errors and a second file with two. *)
Definition twoFiles : Comparator.t :=
  Comparator.NewComparator [ "before.har"; "after.har" ]
    [ metrics 10 0 2500; metrics 12 2 1800 ].

Definition oneFile : Comparator.t :=
  Comparator.NewComparator [ "only.har" ] [ metrics 10 0 2500 ].

(** The same entry, answered from a cache entry that was there before
    the request. *)
Definition fromCache (e : Entry.t) : Entry.t :=
  {| Entry.StartedDateTime := Entry.StartedDateTime e;
     Entry.Time := Entry.Time e;
     Entry.Request := Entry.Request e;
     Entry.Response := Entry.Response e;
     Entry.Cache := Cache.mk (Some (CacheState.mk "33a64df5" 4)) None;
     Entry.Timings := Entry.Timings e |}.

(** Four requests, the first of them answered from the cache. *)
Definition oneInFourCached : Analyzer.t :=
  analyzer [ fromCache (entry 0 1 0 0); entry 1000000 150 120 12;
             entry 2000000 40 9 0; entry 3000000 25 7 0 ].

(** A POST of 2048 bytes of JSON that failed, a redirected GET of a
    stylesheet and the page itself, given latest first. *)
Definition mixed : Analyzer.t :=
  analyzer
    [ {| Entry.StartedDateTime := 9000000;
         Entry.Time := 75;
         Entry.Request := Request.mk "POST" "https://api.example.org/v1/items" "HTTP/2";
         Entry.Response := Response.mk 500 "Internal Server Error"
                             (Content.mk 2048 "application/json");
         Entry.Cache := Cache.mk None None;
         Entry.Timings := Timings.mk 0 0 (-1) 0 70 5 (-1) |};
      {| Entry.StartedDateTime := 5000000;
         Entry.Time := 30;
         Entry.Request := Request.mk "GET" "https://cdn.example.org/site.css" "HTTP/1.1";
         Entry.Response := Response.mk 301 "Moved Permanently"
                             (Content.mk 0 "text/css");
         Entry.Cache := Cache.mk None None;
         Entry.Timings := Timings.mk 0 3 (-1) 0 9 1 (-1) |};
      entry 1000000 10 4 0 ].

(** The metrics of [metrics], with an average DNS time of [dns]. *)
Definition metricsDNS (requests errors : Z) (load dns : float) : Metrics.t :=
  {| Metrics.TotalRequests := requests;
     Metrics.TotalTime := 900;
     Metrics.TotalSize := 40960;
     Metrics.TTFB := 80;
     Metrics.PageLoadTime := load;
     Metrics.DNSTime := dns;
     Metrics.ConnectTime := 4;
     Metrics.SSLTime := 6;
     Metrics.FirstContentfulPaint := 0;
     Metrics.LargestContentfulPaint := 0;
     Metrics.CacheHitRatio := 25;
     Metrics.ThirdPartyRequests := 3;
     Metrics.ErrorRequests := errors |}.

(** A baseline without DNS time and without errors, and a second file
    with an average DNS time of 35.5 ms and two errors. *)
Definition fromZero : Comparator.t :=
  Comparator.NewComparator [ "before.har"; "after.har" ]
    [ metricsDNS 10 0 2500 0; metricsDNS 12 2 1800 35.5 ].

(** A report on two files. *)
Definition generator : Generator.t :=
  Generator.NewGenerator
    [ Analyzer.har cachedThenSlow; Analyzer.har cachedOnly ]
    [ cachedThenSlow; cachedOnly ] None.

End Samples.

(** * Properties *)

(** ** 64-bit arithmetic and conversions *)

Module GoIntFacts.

Import GoInt.

Lemma wrap64_range (z : Z) : in_int64 (wrap64 z).
Proof.
  unfold in_int64, wrap64, min_int64, max_int64.
  pose proof (Z.mod_pos_bound (z + 2 ^ 63) (2 ^ 64) eq_refl) as B.
  change (2 ^ 64) with (2 * 2 ^ 63) in *. lia.
Qed.

Lemma wrap64_small (z : Z) : in_int64 z -> wrap64 z = z.
Proof.
  unfold in_int64, wrap64, min_int64, max_int64. intros R.
  rewrite Z.mod_small; [ lia | ].
  change (2 ^ 64) with (2 * 2 ^ 63). lia.
Qed.

(** A sum or difference of two 64-bit values wraps at most once. *)
Lemma wrap64_once (z : Z) :
  - 2 ^ 64 <= z < 2 ^ 64 ->
  (in_int64 z /\ wrap64 z = z)
  \/ (max_int64 < z /\ wrap64 z = z - 2 ^ 64)
  \/ (z < min_int64 /\ wrap64 z = z + 2 ^ 64).
Proof.
  unfold in_int64, wrap64, min_int64, max_int64. intros R.
  change (2 ^ 64) with (2 * 2 ^ 63) in *.
  set (h := 2 ^ 63) in *. assert (0 < h) by (subst h; reflexivity).
  Z.div_mod_to_equations. nia.
Qed.





End GoIntFacts.

(** ** Waterfall layout *)

Module TimelineRendererFacts.

Import GoInt GoIntFacts TimelineRenderer.









(** C4 fails on the code: in a chart of 1033 columns, the bar of a
    request whose duration divided by the scale is 2^63 - 1024 columns
    starts at column 1032 and keeps that width, because the sum the
    second clipping test compares with the chart width wraps around to
    a negative number. *)
Theorem RenderWaterfall_bar_overflows :
  chartWidth Samples.wideRenderer = 1033
  /\ time.of_float_ms Samples.aeon = 0
  /\ RenderWaterfall Samples.wideRenderer Samples.overlong
     = Some [ mkBar 0 1; mkBar 1032 (2 ^ 63 - 1024) ]
  /\ add64 1032 (2 ^ 63 - 1024) = - 2 ^ 63 + 8
  /\ ~ Spec.inside 1033 (mkBar 1032 (2 ^ 63 - 1024)).
Proof.
  repeat split; try (vm_compute; reflexivity).
  unfold Spec.inside. cbn [startPos duration]. lia.
Qed.

(** *** The time window *)









End TimelineRendererFacts.

(** ** Sorting *)

Module SortFacts.

Import sort.

Lemma StronglySorted_snoc {A : Type} (R : A -> A -> Prop) (l : list A) (a : A) :
  StronglySorted R l -> Forall (fun x => R x a) l ->
  StronglySorted R (l ++ [a]).
Proof.
  induction 1 as [|x l S IH F]; intros Fa; cbn.
  - repeat constructor.
  - inversion Fa as [|? ? Rx Fl]; subst. constructor.
    + auto.
    + apply Forall_app. split; [ assumption | repeat constructor; assumption ].
Qed.

Lemma StronglySorted_rev {A : Type} (R : A -> A -> Prop) (l : list A) :
  StronglySorted R l -> StronglySorted (fun x y => R y x) (rev l).
Proof.
  induction 1 as [|x l S IH F]; cbn.
  - constructor.
  - apply StronglySorted_snoc; [ assumption | ].
    apply Forall_rev. assumption.
Qed.

Lemma StronglySorted_weaken {A : Type} (R Q : A -> A -> Prop) (l : list A) :
  (forall x y, R x y -> Q x y) -> StronglySorted R l -> StronglySorted Q l.
Proof.
  intros W. induction 1 as [|x l S IH F]; constructor.
  - assumption.
  - revert F. apply Forall_impl. auto.
Qed.

Section Insertion.

Context {A : Type} (less : A -> A -> bool).

Lemma sink_permutation (x : A) (s : list A) :
  Permutation (x :: s) (sink less x s).
Proof.
  induction s as [|y s IH]; cbn.
  - reflexivity.
  - destruct (less x y).
    + rewrite perm_swap. now apply perm_skip.
    + reflexivity.
Qed.

Lemma sinks_permutation (l s : list A) :
  Permutation (l ++ s) (fold_left (fun s x => sink less x s) l s).
Proof.
  revert s. induction l as [|x l IH]; intros s; cbn.
  - reflexivity.
  - rewrite <- IH. rewrite <- sink_permutation.
    apply Permutation_middle.
Qed.

Lemma insertionSort_permutation (l : list A) :
  Permutation l (insertionSort less l).
Proof.
  unfold insertionSort. rewrite <- Permutation_rev.
  rewrite <- sinks_permutation. now rewrite app_nil_r.
Qed.

Hypothesis order : StrictWeakOrder less.

Lemma less_asymmetric (x y : A) : less x y = true -> less y x = false.
Proof.
  destruct order as (irrefl & trans & _). intros L.
  destruct (less y x) eqn:G; [ | reflexivity ].
  rewrite <- (irrefl x). symmetry. eapply trans; eassumption.
Qed.

(** The sorted prefix, read from right to left. *)
Let descending : list A -> Prop :=
  StronglySorted (fun x y => less x y = false).

Lemma sink_descending (x : A) (s : list A) :
  descending s -> descending (sink less x s).
Proof.
  destruct order as (_ & _ & negtrans).
  induction 1 as [|y s S IH F]; cbn.
  - repeat constructor.
  - destruct (less x y) eqn:L.
    + constructor; [ assumption | ].
      apply (Permutation_Forall (sink_permutation x s)).
      constructor; [ now apply less_asymmetric | assumption ].
    + constructor; [ now constructor | ].
      constructor; [ assumption | ].
      revert F. apply Forall_impl. intros z. now apply negtrans.
Qed.

Lemma sinks_descending (l s : list A) :
  descending s -> descending (fold_left (fun s x => sink less x s) l s).
Proof.
  revert s. induction l as [|x l IH]; intros s D; cbn.
  - assumption.
  - now apply IH, sink_descending.
Qed.

Lemma insertionSort_sorted (l : list A) : Sorted less (insertionSort less l).
Proof.
  unfold Sorted, insertionSort.
  apply (StronglySorted_rev (fun x y => less x y = false)).
  apply sinks_descending. constructor.
Qed.

End Insertion.

#[export] Instance insertion_contract : Contract insertion.
Proof.
  split; cbn.
  - intros. apply insertionSort_permutation.
  - intros. now apply insertionSort_sorted.
Qed.

Lemma StronglySorted_skipn {A : Type} (R : A -> A -> Prop) (n : nat)
  (l : list A) :
  StronglySorted R l -> StronglySorted R (skipn n l).
Proof.
  revert l. induction n as [|n IH]; intros l S; [ exact S | ].
  destruct l as [|x l]; [ exact S | ].
  cbn. apply IH. now inversion S.
Qed.

End SortFacts.

(** ** Metrics calculator *)

Module AnalyzerFacts.

Import GoInt Analyzer.

(** C1 fails on the code: the first entry's wait is taken whatever its
    sign, so a first response that waited 0 ms fixes the TTFB at 0,
    both when a later entry has the least positive wait (120 ms here)
    and when no entry has a positive wait. *)
Theorem CalculateMetrics_TTFB_first_wait_zero :
  map (fun e => Timings.Wait (Entry.Timings e))
      (Log.Entries (HAR.Log (har Samples.cachedThenSlow))) = [ 0; 120 ]
  /\ Metrics.TTFB (CalculateMetrics Samples.cachedThenSlow) = 0%float
  /\ map (fun e => Timings.Wait (Entry.Timings e))
         (Log.Entries (HAR.Log (har Samples.cachedOnly))) = [ 0 ]
  /\ Metrics.TTFB (CalculateMetrics Samples.cachedOnly) = 0%float.
Proof. repeat split; vm_compute; reflexivity. Qed.

(** On every input the first iteration stores the first entry's wait,
    positive or not. *)
Lemma loopBody_first_wait (entry : Entry.t) :
  firstByte (loopBody locals0 entry)
  = GoFloat.of_int (Timings.Wait (Entry.Timings entry)).
Proof. reflexivity. Qed.

(** A float accumulator of the loop that adds a phase when the phase is
    positive ends as the sum over the entries with a positive phase. *)
Lemma loop_sums_positive (acc : locals -> float) (phase : Timings.t -> Z) :
  (forall v entry,
      acc (loopBody v entry)
      = if 0 <? phase (Entry.Timings entry)
        then PrimFloat.add (acc v) (GoFloat.of_int (phase (Entry.Timings entry)))
        else acc v) ->
  forall entries v,
    acc (fold_left loopBody entries v)
    = fold_left PrimFloat.add
        (map (fun e => GoFloat.of_int (phase (Entry.Timings e)))
             (filter (fun e => 0 <? phase (Entry.Timings e)) entries))
        (acc v).
Proof.
  intros step. induction entries as [|e entries IH]; intros v; cbn.
  - reflexivity.
  - rewrite IH, step.
    destruct (0 <? phase (Entry.Timings e)); reflexivity.
Qed.

(** C5: for a non-empty entry collection, the average DNS, connect and
    SSL times are each the sum of the phase over the entries where it is
    positive, divided by the number of all entries. *)
Theorem CalculateMetrics_phase_averages (a : t) :
  let entries := Log.Entries (HAR.Log (har a)) in
  let n := GoFloat.of_int (Z.of_nat (List.length entries)) in
  entries <> [] ->
  Metrics.DNSTime (CalculateMetrics a)
  = PrimFloat.div (Spec.sumPositive Timings.DNS entries) n
  /\ Metrics.ConnectTime (CalculateMetrics a)
     = PrimFloat.div (Spec.sumPositive Timings.Connect entries) n
  /\ Metrics.SSLTime (CalculateMetrics a)
     = PrimFloat.div (Spec.sumPositive Timings.SSL entries) n.
Proof.
  cbv zeta. intros NE. unfold CalculateMetrics, Spec.sumPositive.
  destruct (Log.Entries (HAR.Log (har a))) as [|e entries]; [ congruence | ].
  cbn [Metrics.DNSTime Metrics.ConnectTime Metrics.SSLTime].
  rewrite (loop_sums_positive dnsTime Timings.DNS) by reflexivity.
  rewrite (loop_sums_positive connectTime Timings.Connect) by reflexivity.
  rewrite (loop_sums_positive sslTime Timings.SSL) by reflexivity.
  repeat split.
Qed.

Lemma CalculateMetrics_phase_averages_witness :
  Log.Entries (HAR.Log (har Samples.latestFirst)) <> []
  /\ Metrics.DNSTime (CalculateMetrics Samples.latestFirst)
     = PrimFloat.div
         (Spec.sumPositive Timings.DNS
            (Log.Entries (HAR.Log (har Samples.latestFirst))))
         (GoFloat.of_int
            (Z.of_nat (List.length (Log.Entries (HAR.Log (har Samples.latestFirst)))))).
Proof.
  split; [ discriminate | ].
  apply (CalculateMetrics_phase_averages Samples.latestFirst).
  discriminate.
Defined.

(** The one positive DNS time of the three sample entries, 3 ms, is
    divided by three. *)
Example phase_average_diluted :
  Metrics.DNSTime (CalculateMetrics Samples.latestFirst) = 1%float.
Proof. vm_compute. reflexivity. Qed.

(** ** Timeline builder *)

Lemma appendEvents_from (entries : list Entry.t) (k : nat)
  (events : list TimelineEvent.t) :
  fold_left
    (fun (st : Z * list TimelineEvent.t) entry =>
       (fst st + 1, snd st ++ [eventOf (fst st) entry]))
    entries (Z.of_nat k, events)
  = (Z.of_nat (k + List.length entries),
     events
     ++ map (fun ie => eventOf (Z.of_nat (fst ie)) (snd ie))
            (combine (seq k (List.length entries)) entries)).
Proof.
  revert k events. induction entries as [|e entries IH]; intros k events; cbn.
  - now rewrite Nat.add_0_r, app_nil_r.
  - replace (Z.of_nat k + 1) with (Z.of_nat (S k)) by lia.
    rewrite IH, <- app_assoc. cbn. do 2 f_equal. lia.
Qed.

Lemma appendEvents_projections (entries : list Entry.t) :
  appendEvents entries = Spec.projections entries.
Proof.
  unfold appendEvents, Spec.projections.
  change (0, @nil TimelineEvent.t) with (Z.of_nat 0, @nil TimelineEvent.t).
  now rewrite appendEvents_from.
Qed.

Lemma lessByStartTime_order : sort.StrictWeakOrder lessByStartTime.
Proof.
  unfold sort.StrictWeakOrder, lessByStartTime, time.Before.
  repeat split; intros *; rewrite ?Z.ltb_lt, ?Z.ltb_ge; lia.
Qed.

Section Sorted.

Context `{alg : sort.Algorithm} `{!sort.Contract alg}.

(** C8: the events [GenerateTimeline] returns are a rearrangement of
    the projections of the entries, one event per entry: the indices,
    URLs, methods, statuses, start times, durations, sizes and content
    types that the events carry are, event by event, those that the
    entries hold (each entry with its position as index), unchanged. *)
Theorem GenerateTimeline_permutation (a : t) :
  let entries := Log.Entries (HAR.Log (har a)) in
  Permutation (Spec.heldAll entries) (map Spec.shown (GenerateTimeline a))
  /\ Permutation (Spec.projections entries) (GenerateTimeline a)
  /\ List.length (GenerateTimeline a) = List.length entries.
Proof.
  cbv zeta. unfold GenerateTimeline. rewrite appendEvents_projections.
  assert (P := sort.Slice_permutation _ lessByStartTime
                 (Spec.projections (Log.Entries (HAR.Log (har a))))).
  split; [ | split; [ exact P | ] ].
  - apply (Permutation_map Spec.shown) in P.
    unfold Spec.projections in P at 1. rewrite map_map in P. exact P.
  - rewrite <- (Permutation_length P).
    unfold Spec.projections.
    now rewrite length_map, length_combine, length_seq, Nat.min_id.
Qed.

(** C3, as the code has it: the events [GenerateTimeline] returns are
    in ascending order of start time.  (The comparison handed to
    [sort.Slice] reads the start times only, and [sort.Slice] does not
    promise to keep equal elements in their original order.) *)
Theorem GenerateTimeline_sorted (a : t) :
  Spec.ByStartTime (GenerateTimeline a).
Proof.
  unfold Spec.ByStartTime, GenerateTimeline.
  eapply SortFacts.StronglySorted_weaken;
    [ | apply sort.Slice_sorted, lessByStartTime_order ].
  cbn. unfold lessByStartTime, time.Before. intros x y.
  rewrite Z.ltb_ge. trivial.
Qed.

End Sorted.

Lemma GenerateTimeline_permutation_witness :
  sort.Contract sort.insertion
  /\ Permutation
       [ (0, "https://api.example.org/v1/items", "POST", 500, 9000000,
          75%float, 2048, "application/json");
         (1, "https://cdn.example.org/site.css", "GET", 301, 5000000,
          30%float, 0, "text/css");
         (2, "https://example.org/index.html", "GET", 200, 1000000,
          10%float, 512, "text/html") ]%string
       (map Spec.shown (@GenerateTimeline sort.insertion Samples.mixed))
  /\ List.length (@GenerateTimeline sort.insertion Samples.mixed) = 3%nat.
Proof.
  split; [ exact SortFacts.insertion_contract | ].
  destruct (@GenerateTimeline_permutation sort.insertion
              SortFacts.insertion_contract Samples.mixed) as (P & _ & L).
  split; [ exact P | exact L ].
Defined.

Lemma GenerateTimeline_sorted_witness :
  sort.Contract sort.insertion
  /\ Spec.ByStartTime (@GenerateTimeline sort.insertion Samples.latestFirst).
Proof.
  split; [ exact SortFacts.insertion_contract | ].
  exact (@GenerateTimeline_sorted sort.insertion
           SortFacts.insertion_contract Samples.latestFirst).
Defined.

(** On the fifty entries of [Samples.descending] the library's sort
    never draws from its generator: the result is the same for every
    generator. *)
Lemma GenerateTimeline_descending_generator (next : Z -> Z) :
  @GenerateTimeline (sort.pdqsort next) Samples.descending
  = @GenerateTimeline (sort.pdqsort sort.xorshift) Samples.descending.
Proof. vm_compute. reflexivity. Qed.

(** On a slice of twelve elements or fewer the library runs its
    insertion sort, which leaves simultaneous events in the order of the
    entries. *)
Example GenerateTimeline_short_ties_kept :
  map TimelineEvent.Index
      (@GenerateTimeline (sort.pdqsort sort.xorshift) Samples.simultaneous)
  = [ 0; 1 ].
Proof. vm_compute. reflexivity. Qed.

(** C3 as stated fails.  On fifty entries given latest first, of which
    the first two start at the same instant, the library's sort finds
    the slice in descending order and reverses it: the events come out
    in ascending order of start time, and the two simultaneous ones,
    last, with the index 1 before the index 0. *)
Lemma GenerateTimeline_ties_not_by_index :
  sort.sliceRun sort.xorshift lessByStartTime
    (appendEvents (Log.Entries (HAR.Log (har Samples.descending)))) <> None
  /\ List.length (@GenerateTimeline (sort.pdqsort sort.xorshift)
                                    Samples.descending) = 50%nat
  /\ Spec.ByStartTime
       (@GenerateTimeline (sort.pdqsort sort.xorshift) Samples.descending)
  /\ map TimelineEvent.StartTime
         (skipn 48 (@GenerateTimeline (sort.pdqsort sort.xorshift)
                                      Samples.descending))
     = [ 49000000000; 49000000000 ]
  /\ map TimelineEvent.Index
         (skipn 48 (@GenerateTimeline (sort.pdqsort sort.xorshift)
                                      Samples.descending))
     = [ 1; 0 ]
  /\ ~ Spec.ByStartTimeThenIndex
         (@GenerateTimeline (sort.pdqsort sort.xorshift) Samples.descending).
Proof.
  split; [ vm_compute; discriminate | ].
  split; [ vm_compute; reflexivity | ].
  split.
  { assert (E : map TimelineEvent.StartTime
                    (@GenerateTimeline (sort.pdqsort sort.xorshift)
                                       Samples.descending)
                = map (fun i => Z.of_nat i * 1000000000) (seq 1 48)
                  ++ [ 49000000000; 49000000000 ])
      by (vm_compute; reflexivity).
    unfold Spec.ByStartTime.
    generalize dependent (@GenerateTimeline (sort.pdqsort sort.xorshift)
                                            Samples.descending).
    intros l E.
    assert (S : StronglySorted Z.le (map TimelineEvent.StartTime l)).
    { rewrite E. apply Sorted_StronglySorted; [ exact Z.le_trans | ].
      vm_compute. repeat constructor; discriminate. }
    clear E. induction l as [|x l IH]; [ constructor | ].
    cbn in S. inversion S as [|? ? S' F]; subst.
    constructor; [ now apply IH | ].
    rewrite Forall_map in F. exact F. }
  split; [ vm_compute; reflexivity | ].
  split; [ vm_compute; reflexivity | ].
  intros S. apply (SortFacts.StronglySorted_skipn _ 48) in S.
  assert (E : skipn 48 (@GenerateTimeline (sort.pdqsort sort.xorshift)
                                           Samples.descending)
              = [ eventOf 1 (Samples.entry 49000000000 20 8 0);
                  eventOf 0 (Samples.entry 49000000000 20 8 0) ])
    by (vm_compute; reflexivity).
  rewrite E in S.
  inversion S as [|x l _ F]; subst.
  inversion F as [|y l' R _]; subst.
  cbn in R. lia.
Qed.

End AnalyzerFacts.

(** ** Comparator *)

Module ComparatorFacts.

Import GoInt GoIntFacts Comparator.
Local Open Scope string_scope.

(** *** The strings of the change column *)

Lemma percent_is_a_change (s : string) : (s ++ "%" =? "No change") = false.
Proof.
  apply String.eqb_neq.
  do 9 (destruct s as [|? s]; [ discriminate | ]).
  cbn. intros E.
  do 9 (apply (f_equal (fun t => match t with
                                 | String _ t' => t'
                                 | EmptyString => EmptyString
                                 end)) in E; cbn in E).
  destruct s; discriminate.
Qed.

Lemma d_negative (n : Z) : (n < 0)%Z -> exists s, fmt.d n = String "-" s.
Proof.
  destruct n as [|p|p]; try lia. intros _.
  unfold fmt.d. cbn. eexists. reflexivity.
Qed.

(** *** The slices of a difference *)

Lemma nth_error_indexed {A B : Type} (f : nat * A -> B) (l : list A) (k i : nat) :
  nth_error (map f (combine (seq k (List.length l)) l)) i
  = option_map (fun x => f ((k + i)%nat, x)) (nth_error l i).
Proof.
  revert k i. induction l as [|x l IH]; intros k i.
  - destruct i; reflexivity.
  - destruct i as [|i]; cbn.
    + now rewrite Nat.add_0_r.
    + rewrite IH. now rewrite Nat.add_succ_r.
Qed.

Lemma eachMetric_nth (c : t) (body : nat -> Metrics.t -> column) (i : nat)
  (mi : Metrics.t) :
  nth_error (metrics c) i = Some mi ->
  nth_error (eachMetric c body) i = Some (body i mi).
Proof.
  intros E. unfold eachMetric. rewrite nth_error_indexed, E. reflexivity.
Qed.

Lemma eachMetric_length (c : t) (body : nat -> Metrics.t -> column) :
  List.length (eachMetric c body) = List.length (metrics c).
Proof.
  unfold eachMetric.
  now rewrite length_map, length_combine, length_seq, Nat.min_id.
Qed.

Lemma baseline_first (c : t) (m0 metric : Metrics.t) :
  nth_error (metrics c) 0 = Some m0 -> baseline c metric = m0.
Proof.
  unfold baseline. destruct (metrics c); cbn; congruence.
Qed.

Lemma classify_difference (name : string) (columns : list column) (i : nat)
  (col : column) :
  nth_error columns i = Some col ->
  classify (difference name columns) i = Some (Spec.verdictOf col).
Proof.
  intros E. unfold classify, difference, Spec.verdictOf. cbn.
  rewrite !nth_error_map, E. cbn.
  destruct (change col =? "No change"); [ reflexivity | ].
  destruct (improvement col); reflexivity.
Qed.

(** *** The summary counts the columns *)

Lemma tallyDifference_cells (differences : list MetricDifference.t)
  (acc : option counters) :
  fold_left tallyDifference differences acc
  = fold_left Spec.tallyCell (Spec.cells differences) acc.
Proof.
  revert acc. induction differences as [|diff differences IH]; intros acc; cbn.
  - reflexivity.
  - rewrite fold_left_app, IH. f_equal.
    unfold tallyDifference.
    generalize (seq 1 (List.length (MetricDifference.Improvements diff) - 1)).
    intros l. revert acc. induction l as [|i l IHl]; intros acc; cbn.
    + reflexivity.
    + apply IHl.
Qed.

Lemma tallyCell_counts (cells : list (MetricDifference.t * nat)) (n : counters) :
  Forall (fun cell => classify (fst cell) (snd cell) <> None) cells ->
  fold_left Spec.tallyCell cells (Some n)
  = Some (mkCounters (better n + Spec.hits Better cells)
                     (worse n + Spec.hits Worse cells)
                     (unchanged n + Spec.hits Unchanged cells)).
Proof.
  unfold Spec.hits. intros F. revert n.
  induction F as [|cell cells C _ IH]; intros n.
  - cbn. destruct n. now rewrite !Z.add_0_r.
  - cbn [fold_left Spec.tallyCell]. unfold tally.
    destruct (classify (fst cell) (snd cell)) as [v|] eqn:E; [ | congruence ].
    rewrite IH. cbn [filter]. rewrite E.
    destruct v; cbn [verdict_eqb count better worse unchanged List.length];
      f_equal; f_equal; lia.
Qed.

Lemma cells_in (differences : list MetricDifference.t)
  (diff : MetricDifference.t) (i : nat) :
  In diff differences ->
  (1 <= i < List.length (MetricDifference.Improvements diff))%nat ->
  In (diff, i) (Spec.cells differences).
Proof.
  intros D R. unfold Spec.cells. apply in_flat_map.
  exists diff. split; [ assumption | ].
  apply in_map, in_seq. lia.
Qed.

Lemma difference_classified (name : string) (columns : list column) :
  let diff := difference name columns in
  Forall (fun cell => classify (fst cell) (snd cell) <> None)
         (map (pair diff)
              (seq 1 (List.length (MetricDifference.Improvements diff) - 1))).
Proof.
  cbv zeta. apply Forall_map, Forall_forall. intros i I. cbn [fst snd].
  apply in_seq in I. cbn [difference MetricDifference.Improvements] in I.
  rewrite length_map in I.
  destruct (nth_error columns i) as [col|] eqn:E.
  - rewrite (classify_difference _ _ _ _ E). discriminate.
  - apply nth_error_None in E. lia.
Qed.

Section Formatting.

Context `{fmt.Float1}.

Lemma keyMetrics_classified (c : t) :
  Forall (fun cell => classify (fst cell) (snd cell) <> None)
         (Spec.cells (keyMetrics c)).
Proof.
  unfold Spec.cells. apply Forall_flat_map.
  unfold keyMetrics, compareFloat, compareInt, compareSize.
  repeat (constructor; [ apply difference_classified | ]).
  constructor.
Qed.

Lemma calculateSummary_keyMetrics (c : t) :
  exists summary,
    calculateSummary (keyMetrics c) = Some summary
    /\ ComparisonSummary.BetterCount summary = Spec.tallied Better (keyMetrics c)
    /\ ComparisonSummary.WorseCount summary = Spec.tallied Worse (keyMetrics c)
    /\ ComparisonSummary.UnchangedCount summary
       = Spec.tallied Unchanged (keyMetrics c)
    /\ ComparisonSummary.TotalMetrics summary
       = (Spec.tallied Better (keyMetrics c)
          + Spec.tallied Worse (keyMetrics c)
          + Spec.tallied Unchanged (keyMetrics c))%Z.
Proof.
  unfold calculateSummary.
  rewrite tallyDifference_cells.
  rewrite (tallyCell_counts _ _ (keyMetrics_classified c)).
  eexists. split; [ reflexivity | ]. cbn. unfold Spec.tallied.
  repeat split.
Qed.

(** With two files or more [Compare] returns the ten differences and
    a summary that counts their columns. *)
Lemma Compare_two_or_more (c : t) :
  (2 <= List.length (metrics c))%nat ->
  exists cmp,
    Compare c = Some cmp
    /\ Comparison.Differences cmp = keyMetrics c
    /\ ComparisonSummary.BetterCount (Comparison.Summary cmp)
       = Spec.tallied Better (keyMetrics c)
    /\ ComparisonSummary.WorseCount (Comparison.Summary cmp)
       = Spec.tallied Worse (keyMetrics c)
    /\ ComparisonSummary.UnchangedCount (Comparison.Summary cmp)
       = Spec.tallied Unchanged (keyMetrics c).
Proof.
  intros L. unfold Compare.
  destruct (Nat.ltb_spec (List.length (metrics c)) 2) as [L'|_]; [ lia | ].
  destruct (calculateSummary_keyMetrics c) as (summary & E & B & W & U & _).
  cbv zeta. rewrite E. eexists. split; [ reflexivity | ]. cbn. auto.
Qed.

(** A row of [Compare], column [i], is counted by the summary as the
    verdict of what the loop stored there. *)
Lemma Compare_counts_column (c : t) (cmp : Comparison.t) (k i : nat)
  (name : string) (body : nat -> Metrics.t -> column) (mi : Metrics.t) :
  Comparison.Differences cmp = keyMetrics c ->
  ComparisonSummary.BetterCount (Comparison.Summary cmp)
  = Spec.tallied Better (keyMetrics c) ->
  ComparisonSummary.WorseCount (Comparison.Summary cmp)
  = Spec.tallied Worse (keyMetrics c) ->
  ComparisonSummary.UnchangedCount (Comparison.Summary cmp)
  = Spec.tallied Unchanged (keyMetrics c) ->
  nth_error (keyMetrics c) k = Some (difference name (eachMetric c body)) ->
  nth_error (metrics c) i = Some mi ->
  (1 <= i)%nat ->
  let diff := difference name (eachMetric c body) in
  nth_error (Comparison.Differences cmp) k = Some diff
  /\ MetricDifference.Name diff = name
  /\ nth_error (MetricDifference.Changes diff) i = Some (change (body i mi))
  /\ nth_error (MetricDifference.Improvements diff) i
     = Some (improvement (body i mi))
  /\ Spec.countedAs cmp diff i (Spec.verdictOf (body i mi)).
Proof.
  intros D B W U K M I. cbv zeta.
  pose proof (eachMetric_nth c body i mi M) as C.
  unfold Spec.countedAs. rewrite D, B, W, U.
  repeat split; auto.
  - cbn. now rewrite nth_error_map, C.
  - cbn. now rewrite nth_error_map, C.
  - apply cells_in.
    + eapply nth_error_In. eassumption.
    + cbn. rewrite length_map, eachMetric_length.
      split; [ assumption | ]. apply nth_error_Some. congruence.
  - now apply classify_difference.
Qed.


Lemma two_or_more (c : t) (m0 mi : Metrics.t) (i : nat) :
  nth_error (metrics c) 0 = Some m0 ->
  nth_error (metrics c) i = Some mi ->
  (1 <= i)%nat ->
  (2 <= List.length (metrics c))%nat.
Proof.
  intros _ M I.
  assert (i < List.length (metrics c))%nat by (apply nth_error_Some; congruence).
  lia.
Qed.

(** C6: with fewer than two Metrics, [Compare] returns, without a
    panic, a Comparison with no differences and a summary whose
    counts, [TotalMetrics] among them, are zero. *)
Theorem Compare_fewer_than_two (c : t) :
  (List.length (metrics c) < 2)%nat ->
  exists cmp,
    Compare c = Some cmp
    /\ Comparison.Files cmp = files c
    /\ Comparison.Metrics cmp = metrics c
    /\ Comparison.Differences cmp = []
    /\ Comparison.Summary cmp = ComparisonSummary.zero
    /\ ComparisonSummary.TotalMetrics (Comparison.Summary cmp) = 0%Z.
Proof.
  intros L. unfold Compare.
  destruct (Nat.ltb_spec (List.length (metrics c)) 2) as [_|L']; [ | lia ].
  eexists. split; [ reflexivity | ]. cbn. auto.
Qed.

(** C7: when the baseline has no error request and another file has
    two, the "Error Requests" difference of [Compare] reads
    "+2 (+p%)" in that file's column, [p] being the rendering of a
    percentage of zero; its improvement flag is false, and the summary
    counts the column as worse, not as unchanged. *)
Theorem Compare_errors_from_zero (c : t) (m0 mi : Metrics.t) (i : nat) :
  nth_error (metrics c) 0 = Some m0 ->
  nth_error (metrics c) i = Some mi ->
  (1 <= i)%nat ->
  Metrics.ErrorRequests m0 = 0%Z ->
  Metrics.ErrorRequests mi = 2%Z ->
  exists cmp diff,
    Compare c = Some cmp
    /\ nth_error (Comparison.Differences cmp) 6 = Some diff
    /\ MetricDifference.Name diff = "Error Requests"
    /\ nth_error (MetricDifference.Changes diff) i
       = Some ("+2 (+" ++ fmt.f1 0 ++ "%)")
    /\ nth_error (MetricDifference.Improvements diff) i = Some false
    /\ Spec.countedAs cmp diff i Worse.
Proof.
  intros M0 Mi I E0 Ei.
  destruct (Compare_two_or_more c (two_or_more c m0 mi i M0 Mi I))
    as (cmp & E & D & B & W & U).
  exists cmp. eexists. split; [ exact E | ].
  pose proof (Compare_counts_column c cmp 6 i _ _ mi D B W U eq_refl Mi I) as P.
  cbv zeta in P.
  assert (C : intColumn c "Error Requests" "" extractErrorRequests i mi
              = mkColumn "2" ("+2 (+" ++ fmt.f1 0 ++ "%)") false).
  { unfold intColumn, extractErrorRequests.
    rewrite (baseline_first c m0 mi M0), E0, Ei.
    destruct (Nat.ltb_spec 0 i); [ reflexivity | lia ]. }
  rewrite C in P. exact P.
Qed.

(** *** Columns that changed, columns with a zero baseline *)

Lemma sub64_neq (a b : Z) :
  in_int64 a -> in_int64 b -> a <> b -> sub64 a b <> 0%Z.
Proof.
  unfold sub64, in_int64, min_int64, max_int64. intros Ra Rb N.
  destruct (wrap64_once (a - b)) as [[_ E]|[[_ E]|[_ E]]];
    try rewrite E; change (2 ^ 64)%Z with (2 * 2 ^ 63)%Z in *; lia.
Qed.

Lemma intColumn_changed (c : t) (name unit : string)
  (extractor : Metrics.t -> Z) (i : nat) (m0 mi : Metrics.t) :
  nth_error (metrics c) 0 = Some m0 ->
  (1 <= i)%nat ->
  in_int64 (extractor m0) -> in_int64 (extractor mi) ->
  extractor mi <> extractor m0 ->
  (change (intColumn c name unit extractor i mi) =? "No change") = false
  /\ improvement (intColumn c name unit extractor i mi)
     = isImprovementInt name (sub64 (extractor mi) (extractor m0)).
Proof.
  intros M0 I R0 Ri N. unfold intColumn.
  rewrite (baseline_first c m0 mi M0).
  destruct (Nat.ltb_spec 0 i); [ | lia ].
  pose proof (sub64_neq _ _ Ri R0 N) as S.
  destruct (Z.eqb_spec (sub64 (extractor mi) (extractor m0)) 0); [ lia | ].
  destruct (Z.ltb_spec 0 (sub64 (extractor mi) (extractor m0))) as [P|P].
  - split; reflexivity.
  - destruct (d_negative (sub64 (extractor mi) (extractor m0))) as [s D];
      [ lia | ].
    cbn [change improvement]. rewrite D. split; reflexivity.
Qed.

Lemma sizeColumn_changed (c : t) (extractor : Metrics.t -> Z) (i : nat)
  (m0 mi : Metrics.t) :
  nth_error (metrics c) 0 = Some m0 ->
  (1 <= i)%nat ->
  in_int64 (extractor m0) -> in_int64 (extractor mi) ->
  extractor mi <> extractor m0 ->
  (change (sizeColumn c extractor i mi) =? "No change") = false.
Proof.
  intros M0 I R0 Ri N. unfold sizeColumn.
  rewrite (baseline_first c m0 mi M0).
  destruct (Nat.ltb_spec 0 i); [ | lia ].
  pose proof (sub64_neq _ _ Ri R0 N) as S.
  destruct (Z.eqb_spec (sub64 (extractor mi) (extractor m0)) 0); [ lia | ].
  destruct (Z.ltb_spec 0 (sub64 (extractor mi) (extractor m0))); reflexivity.
Qed.

Lemma floatColumn_zero_baseline (c : t) (name unit : string)
  (extractor : Metrics.t -> float) (i : nat) (m0 mi : Metrics.t) :
  nth_error (metrics c) 0 = Some m0 ->
  (1 <= i)%nat ->
  PrimFloat.eqb (extractor m0) 0 = true ->
  floatColumn c name unit extractor i mi
  = mkColumn (fmt.f1 (extractor mi) ++ unit) "No change" false.
Proof.
  intros M0 I Z0. unfold floatColumn.
  rewrite (baseline_first c m0 mi M0), Z0.
  destruct (Nat.ltb_spec 0 i); [ reflexivity | lia ].
Qed.

Lemma verdictOf_changed (col : column) :
  (change col =? "No change") = false ->
  Spec.verdictOf col = if improvement col then Better else Worse.
Proof. unfold Spec.verdictOf. now intros ->. Qed.

Lemma zero_in_int64 : in_int64 0.
Proof. unfold in_int64, min_int64, max_int64. lia. Qed.

(** C10: when a file's total request count differs from the
    baseline's, the "Total Requests" difference of [Compare] has a
    false improvement flag in that file's column, and the summary
    counts the column as worse, whichever way the count moved. *)
Theorem Compare_total_requests_changed (c : t) (m0 mi : Metrics.t) (i : nat) :
  nth_error (metrics c) 0 = Some m0 ->
  nth_error (metrics c) i = Some mi ->
  (1 <= i)%nat ->
  in_int64 (Metrics.TotalRequests m0) ->
  in_int64 (Metrics.TotalRequests mi) ->
  Metrics.TotalRequests mi <> Metrics.TotalRequests m0 ->
  exists cmp diff,
    Compare c = Some cmp
    /\ nth_error (Comparison.Differences cmp) 5 = Some diff
    /\ MetricDifference.Name diff = "Total Requests"
    /\ nth_error (MetricDifference.Changes diff) i <> Some "No change"
    /\ nth_error (MetricDifference.Improvements diff) i = Some false
    /\ Spec.countedAs cmp diff i Worse.
Proof.
  intros M0 Mi I R0 Ri N.
  destruct (Compare_two_or_more c (two_or_more c m0 mi i M0 Mi I))
    as (cmp & E & D & B & W & U).
  exists cmp. eexists. split; [ exact E | ].
  destruct (Compare_counts_column c cmp 5 i _ _ mi D B W U eq_refl Mi I)
    as (P1 & P2 & P3 & P4 & P5).
  destruct (intColumn_changed c "Total Requests" "" extractTotalRequests
              i m0 mi M0 I R0 Ri N) as [Ch Im].
  rewrite (verdictOf_changed _ Ch), Im in P5. rewrite Im in P4.
  split; [ exact P1 | split; [ exact P2 | split ] ]; [ | split; assumption ].
  rewrite P3. intros Q. injection Q as Q. rewrite Q in Ch. discriminate.
Qed.

(** C9: when the baseline value of a floating-point metric (load
    time, TTFB, average DNS, connect and SSL times, cache hit ratio)
    is zero, every other file's column of that difference reads
    "No change" with a false improvement flag and is counted as
    unchanged, whatever the file's own value; whereas on the integer
    and size metrics a zero baseline and a nonzero value make a column
    that is not "No change" and is not counted as unchanged. *)
Theorem Compare_zero_baseline (c : t) (m0 mi : Metrics.t) (i : nat) :
  nth_error (metrics c) 0 = Some m0 ->
  nth_error (metrics c) i = Some mi ->
  (1 <= i)%nat ->
  exists cmp,
    Compare c = Some cmp
    /\ (forall k name unit extractor,
           In (k, name, unit, extractor) Spec.floatRows ->
           PrimFloat.eqb (extractor m0) 0 = true ->
           exists diff,
             nth_error (Comparison.Differences cmp) k = Some diff
             /\ MetricDifference.Name diff = name
             /\ nth_error (MetricDifference.Changes diff) i = Some "No change"
             /\ nth_error (MetricDifference.Improvements diff) i = Some false
             /\ Spec.countedAs cmp diff i Unchanged)
    /\ (forall k name extractor,
           In (k, name, extractor) Spec.integerRows ->
           in_int64 (extractor mi) ->
           extractor m0 = 0%Z ->
           extractor mi <> 0%Z ->
           exists diff v,
             nth_error (Comparison.Differences cmp) k = Some diff
             /\ MetricDifference.Name diff = name
             /\ nth_error (MetricDifference.Changes diff) i <> Some "No change"
             /\ Spec.countedAs cmp diff i v
             /\ v <> Unchanged).
Proof.
  intros M0 Mi I.
  destruct (Compare_two_or_more c (two_or_more c m0 mi i M0 Mi I))
    as (cmp & E & D & B & W & U).
  exists cmp. split; [ exact E | split ].
  - intros k name unit extractor R Z0.
    cbn in R.
    repeat (destruct R as [R|R];
            [ injection R as <- <- <- <-; eexists;
              match goal with
              | |- nth_error _ ?k = _ /\ _ =>
                  pose proof (Compare_counts_column c cmp k i _ _ mi D B W U
                                eq_refl Mi I) as P
              end;
              cbv zeta in P;
              rewrite (floatColumn_zero_baseline c _ _ _ i m0 mi M0 I Z0) in P;
              exact P | ]).
    contradiction.
  - intros k name extractor R Ri Z0 N.
    assert (R0 : in_int64 (extractor m0)) by (rewrite Z0; apply zero_in_int64).
    assert (N' : extractor mi <> extractor m0) by congruence.
    cbn in R.
    destruct R as [R|[R|[R|[R|[]]]]]; injection R as <- <- <-; eexists;
      match goal with
      | |- exists _, nth_error _ ?k = _ /\ _ =>
          pose proof (Compare_counts_column c cmp k i _ _ mi D B W U
                        eq_refl Mi I) as (P1 & P2 & P3 & P4 & P5)
      end;
      match type of P3 with
      | _ = Some (change (intColumn c ?n ?u ?e i mi)) =>
          destruct (intColumn_changed c n u e i m0 mi M0 I R0 Ri N') as [Ch _]
      | _ = Some (change (sizeColumn c ?e i mi)) =>
          pose proof (sizeColumn_changed c e i m0 mi M0 I R0 Ri N') as Ch
      end;
      rewrite (verdictOf_changed _ Ch) in P5;
      (eexists; split; [ exact P1 | split; [ exact P2 | split; [ | split ] ] ];
       [ rewrite P3; intros Q; injection Q as Q; rewrite Q in Ch; discriminate
       | exact P5
       | match goal with |- context [if ?b then _ else _] => destruct b end;
         discriminate ]).
Qed.

End Formatting.

(** *** The theorems on sample files *)

Lemma Compare_fewer_than_two_witness :
  (List.length (metrics Samples.oneFile) < 2)%nat
  /\ exists cmp,
       @Compare fmt.fixed Samples.oneFile = Some cmp
       /\ Comparison.Files cmp = files Samples.oneFile
       /\ Comparison.Metrics cmp = metrics Samples.oneFile
       /\ Comparison.Differences cmp = []
       /\ Comparison.Summary cmp = ComparisonSummary.zero
       /\ ComparisonSummary.TotalMetrics (Comparison.Summary cmp) = 0%Z.
Proof.
  split; [ cbn; lia | ].
  apply (@Compare_fewer_than_two fmt.fixed Samples.oneFile). cbn. lia.
Defined.

Lemma Compare_errors_from_zero_witness :
  exists cmp diff,
    @Compare fmt.fixed Samples.twoFiles = Some cmp
    /\ nth_error (Comparison.Differences cmp) 6 = Some diff
    /\ MetricDifference.Name diff = "Error Requests"
    /\ nth_error (MetricDifference.Changes diff) 1 = Some "+2 (+0.0%)"
    /\ nth_error (MetricDifference.Improvements diff) 1 = Some false
    /\ Spec.countedAs cmp diff 1 Worse.
Proof.
  apply (@Compare_errors_from_zero fmt.fixed Samples.twoFiles
           (Samples.metrics 10 0 2500) (Samples.metrics 12 2 1800) 1);
    solve [ reflexivity | lia ].
Defined.

Lemma Compare_total_requests_changed_witness :
  exists cmp diff,
    @Compare fmt.fixed Samples.twoFiles = Some cmp
    /\ nth_error (Comparison.Differences cmp) 5 = Some diff
    /\ MetricDifference.Name diff = "Total Requests"
    /\ nth_error (MetricDifference.Changes diff) 1 <> Some "No change"
    /\ nth_error (MetricDifference.Improvements diff) 1 = Some false
    /\ Spec.countedAs cmp diff 1 Worse.
Proof.
  apply (@Compare_total_requests_changed fmt.fixed Samples.twoFiles
           (Samples.metrics 10 0 2500) (Samples.metrics 12 2 1800) 1);
    solve [ reflexivity | lia | unfold in_int64, min_int64, max_int64; cbn; lia
          | cbn; lia ].
Defined.

(** The sample baseline has an average DNS time of zero. *)
Lemma Compare_zero_baseline_witness :
  PrimFloat.eqb (extractDNSTime (Samples.metricsDNS 10 0 2500 0)) 0 = true
  /\ PrimFloat.eqb (extractDNSTime (Samples.metricsDNS 12 2 1800 35.5)) 0 = false
  /\ exists cmp dns errors v,
       @Compare fmt.fixed Samples.fromZero = Some cmp
       /\ nth_error (Comparison.Differences cmp) 2 = Some dns
       /\ MetricDifference.Name dns = "Average DNS Time"
       /\ nth_error (MetricDifference.Changes dns) 1 = Some "No change"
       /\ nth_error (MetricDifference.Improvements dns) 1 = Some false
       /\ Spec.countedAs cmp dns 1 Unchanged
       /\ nth_error (Comparison.Differences cmp) 6 = Some errors
       /\ MetricDifference.Name errors = "Error Requests"
       /\ nth_error (MetricDifference.Changes errors) 1 <> Some "No change"
       /\ Spec.countedAs cmp errors 1 v
       /\ v <> Unchanged.
Proof.
  split; [ reflexivity | split; [ reflexivity | ] ].
  destruct (@Compare_zero_baseline fmt.fixed Samples.fromZero
              (Samples.metricsDNS 10 0 2500 0)
              (Samples.metricsDNS 12 2 1800 35.5) 1
              eq_refl eq_refl (le_n 1)) as (cmp & E & F & G).
  destruct (F 2%nat "Average DNS Time" "ms" extractDNSTime)
    as (dns & D1 & D2 & D3 & D4 & D5); [ cbn; auto | reflexivity | ].
  destruct (G 6%nat "Error Requests" extractErrorRequests)
    as (errors & v & E1 & E2 & E3 & E4 & E5);
    [ cbn; auto | vm_compute; split; discriminate | reflexivity
    | discriminate | ].
  exists cmp, dns, errors, v. repeat (split; [ assumption | ]). assumption.
Defined.

End ComparatorFacts.

(** ** More on the metrics calculator and its queries *)

Module AnalyzerQueries.

Import GoInt GoIntFacts Analyzer.

(** A counter of the loop that goes up on a test ends as the number of
    entries that pass the test. *)
Lemma loop_counts (acc : locals -> Z) (test : Entry.t -> bool) :
  (forall v entry,
      acc (loopBody v entry) = if test entry then acc v + 1 else acc v) ->
  forall entries v,
    acc (fold_left loopBody entries v)
    = acc v + Z.of_nat (List.length (filter test entries)).
Proof.
  intros step. induction entries as [|e entries IH]; intros v; cbn [fold_left filter].
  - cbn. lia.
  - rewrite IH, step. destruct (test e); cbn [List.length]; lia.
Qed.

Lemma filter_length_le_Z {A : Type} (f : A -> bool) (l : list A) :
  0 <= Z.of_nat (List.length (filter f l)) <= Z.of_nat (List.length l).
Proof. pose proof (filter_length_le f l). lia. Qed.

(** The request counts of [CalculateMetrics], on every collection: the
    total is the number of entries, the error and third-party counts are
    the numbers of entries with a status of 400 or more and with a
    third-party URL, and so lie between zero and the total. *)
Theorem CalculateMetrics_counts (a : t) :
  let entries := Log.Entries (HAR.Log (har a)) in
  let m := CalculateMetrics a in
  Metrics.TotalRequests m = Z.of_nat (List.length entries)
  /\ Metrics.ErrorRequests m
     = Z.of_nat (List.length
                   (filter (fun e => 400 <=? Response.Status (Entry.Response e))
                           entries))
  /\ Metrics.ThirdPartyRequests m
     = Z.of_nat (List.length
                   (filter (fun e => isThirdParty (Request.URL (Entry.Request e)))
                           entries))
  /\ 0 <= Metrics.ErrorRequests m <= Metrics.TotalRequests m
  /\ 0 <= Metrics.ThirdPartyRequests m <= Metrics.TotalRequests m.
Proof.
  cbv zeta. unfold CalculateMetrics.
  destruct (Log.Entries (HAR.Log (har a))) as [|e entries] eqn:E.
  - cbn. lia.
  - cbn [Metrics.TotalRequests Metrics.ErrorRequests Metrics.ThirdPartyRequests].
    rewrite (loop_counts errorRequests
               (fun e => 400 <=? Response.Status (Entry.Response e)))
      by reflexivity.
    rewrite (loop_counts thirdPartyRequests
               (fun e => isThirdParty (Request.URL (Entry.Request e))))
      by reflexivity.
    cbn [errorRequests thirdPartyRequests locals0]. rewrite !Z.add_0_l.
    pose proof (filter_length_le_Z
                  (fun e => 400 <=? Response.Status (Entry.Response e))
                  (e :: entries)).
    pose proof (filter_length_le_Z
                  (fun e => isThirdParty (Request.URL (Entry.Request e)))
                  (e :: entries)).
    repeat split; lia.
Qed.

(** For a non-empty collection the cache hit ratio is the number of
    entries with a [beforeRequest] cache state, over the number of
    entries, times 100. *)
Theorem CalculateMetrics_cache_hit_ratio (a : t) :
  let entries := Log.Entries (HAR.Log (har a)) in
  entries <> [] ->
  Metrics.CacheHitRatio (CalculateMetrics a)
  = PrimFloat.mul
      (PrimFloat.div
         (GoFloat.of_int
            (Z.of_nat
               (List.length
                  (filter (fun e => match Cache.BeforeRequest (Entry.Cache e) with
                                    | Some _ => true
                                    | None => false
                                    end)
                          entries))))
         (GoFloat.of_int (Z.of_nat (List.length entries))))
      100.
Proof.
  cbv zeta. intros NE. unfold CalculateMetrics.
  destruct (Log.Entries (HAR.Log (har a))) as [|e entries]; [ congruence | ].
  cbn [Metrics.CacheHitRatio].
  rewrite (loop_counts cacheHits
             (fun e => match Cache.BeforeRequest (Entry.Cache e) with
                       | Some _ => true
                       | None => false
                       end)).
  - reflexivity.
  - intros v entry. cbn [loopBody cacheHits].
    destruct (Cache.BeforeRequest (Entry.Cache entry)); reflexivity.
Qed.

Lemma CalculateMetrics_cache_hit_ratio_witness :
  Log.Entries (HAR.Log (har Samples.oneInFourCached)) <> []
  /\ Metrics.CacheHitRatio (CalculateMetrics Samples.oneInFourCached) = 25%float.
Proof.
  split; [ discriminate | ].
  rewrite (CalculateMetrics_cache_hit_ratio Samples.oneInFourCached)
    by discriminate.
  reflexivity.
Defined.

(** *** The total size *)

Lemma wrap64_add_l (a b : Z) : wrap64 (wrap64 a + b) = wrap64 (a + b).
Proof.
  unfold wrap64.
  replace ((a + 2 ^ 63) mod 2 ^ 64 - 2 ^ 63 + b + 2 ^ 63)
    with ((a + 2 ^ 63) mod 2 ^ 64 + b) by lia.
  replace (a + b + 2 ^ 63) with ((a + 2 ^ 63) + b) by lia.
  now rewrite Z.add_mod_idemp_l by (intros E; discriminate E).
Qed.

Lemma loop_totalSize (entries : list Entry.t) (v : locals) :
  in_int64 (totalSize v) ->
  totalSize (fold_left loopBody entries v)
  = wrap64 (totalSize v + Spec.sumSizes entries).
Proof.
  revert v. induction entries as [|e entries IH]; intros v R;
    cbn [fold_left].
  - unfold Spec.sumSizes. cbn. rewrite Z.add_0_r. symmetry.
    now apply wrap64_small.
  - rewrite IH by (cbn [loopBody totalSize]; apply wrap64_range).
    cbn [loopBody totalSize]. unfold add64. rewrite wrap64_add_l.
    f_equal. unfold Spec.sumSizes. cbn. lia.
Qed.

(** The total size is the sum of the content sizes of all entries
    modulo 2^64: the wrap-arounds on the way cancel, and the total is the
    exact sum whenever that sum is an [int64]. *)
Theorem CalculateMetrics_total_size (a : t) :
  let entries := Log.Entries (HAR.Log (har a)) in
  Metrics.TotalSize (CalculateMetrics a) = wrap64 (Spec.sumSizes entries)
  /\ (in_int64 (Spec.sumSizes entries) ->
      Metrics.TotalSize (CalculateMetrics a) = Spec.sumSizes entries).
Proof.
  cbv zeta.
  assert (E : Metrics.TotalSize (CalculateMetrics a)
              = wrap64 (Spec.sumSizes (Log.Entries (HAR.Log (har a))))).
  { unfold CalculateMetrics.
    destruct (Log.Entries (HAR.Log (har a))) as [|e entries]; [ reflexivity | ].
    cbn [Metrics.TotalSize]. rewrite loop_totalSize; [ reflexivity | ].
    unfold in_int64, min_int64, max_int64. cbn. lia. }
  split; [ exact E | ].
  intros R. rewrite E. now apply wrap64_small.
Qed.

Lemma CalculateMetrics_total_size_witness :
  in_int64 (Spec.sumSizes (Log.Entries (HAR.Log (har Samples.cachedThenSlow))))
  /\ Metrics.TotalSize (CalculateMetrics Samples.cachedThenSlow)
     = Spec.sumSizes (Log.Entries (HAR.Log (har Samples.cachedThenSlow))).
Proof.
  assert (R : in_int64
                (Spec.sumSizes (Log.Entries (HAR.Log (har Samples.cachedThenSlow)))))
    by (vm_compute; split; discriminate).
  split; [ exact R | ].
  apply (CalculateMetrics_total_size Samples.cachedThenSlow). exact R.
Defined.

(** *** [GetErrorRequests] *)

Lemma GetErrorRequests_from (entries errors : list Entry.t) :
  fold_left
    (fun errors entry =>
       if 400 <=? Response.Status (Entry.Response entry)
       then errors ++ [entry] else errors)
    entries errors
  = errors
    ++ filter (fun e => 400 <=? Response.Status (Entry.Response e)) entries.
Proof.
  revert errors. induction entries as [|e entries IH]; intros errors;
    cbn [fold_left filter].
  - now rewrite app_nil_r.
  - rewrite IH. destruct (400 <=? Response.Status (Entry.Response e)).
    + now rewrite <- app_assoc.
    + reflexivity.
Qed.

Lemma CalculateMetrics_errors (a : t) :
  Metrics.ErrorRequests (CalculateMetrics a)
  = Z.of_nat (List.length
                (filter (fun e => 400 <=? Response.Status (Entry.Response e))
                        (Log.Entries (HAR.Log (har a))))).
Proof.
  unfold CalculateMetrics.
  destruct (Log.Entries (HAR.Log (har a))) as [|e entries]; [ reflexivity | ].
  cbn [Metrics.ErrorRequests].
  now rewrite (loop_counts errorRequests
                 (fun e => 400 <=? Response.Status (Entry.Response e)))
    by reflexivity.
Qed.

(** [GetErrorRequests] returns the entries with a status of 400 or more,
    in their order in the file, and as many of them as [CalculateMetrics]
    counts in [ErrorRequests]. *)
Theorem GetErrorRequests_filter (a : t) :
  GetErrorRequests a
  = filter (fun e => 400 <=? Response.Status (Entry.Response e))
           (Log.Entries (HAR.Log (har a)))
  /\ Z.of_nat (List.length (GetErrorRequests a))
     = Metrics.ErrorRequests (CalculateMetrics a).
Proof.
  assert (E : GetErrorRequests a
              = filter (fun e => 400 <=? Response.Status (Entry.Response e))
                       (Log.Entries (HAR.Log (har a)))).
  { unfold GetErrorRequests. now rewrite GetErrorRequests_from. }
  split; [ exact E | ].
  rewrite E. symmetry. apply CalculateMetrics_errors.
Qed.

(** *** Third-party detection *)




(** *** The timeline points back at the entries *)

Lemma combine_seq_In {A : Type} (l : list A) (b i : nat) (x : A) :
  In (i, x) (combine (seq b (List.length l)) l) ->
  (b <= i)%nat /\ nth_error l (i - b) = Some x.
Proof.
  revert b. induction l as [|y l IH]; intros b; cbn [List.length seq combine].
  - intros [].
  - intros [E|I].
    + injection E as <- <-. rewrite Nat.sub_diag. split; [ lia | reflexivity ].
    + destruct (IH (S b) I) as [L N]. split; [ lia | ].
      replace (i - b)%nat with (S (i - S b)) by lia. exact N.
Qed.

Lemma projections_In (entries : list Entry.t) (ev : TimelineEvent.t) :
  In ev (Spec.projections entries) ->
  exists (i : nat) (entry : Entry.t),
    nth_error entries i = Some entry /\ ev = eventOf (Z.of_nat i) entry.
Proof.
  unfold Spec.projections. intros I. apply in_map_iff in I.
  destruct I as ([i entry] & E & I). cbn [fst snd] in E.
  exists i, entry. split; [ | now symmetry ].
  apply combine_seq_In in I. destruct I as [_ N].
  now rewrite Nat.sub_0_r in N.
Qed.

Lemma projections_indices (entries : list Entry.t) :
  map TimelineEvent.Index (Spec.projections entries)
  = map Z.of_nat (seq 0 (List.length entries)).
Proof.
  unfold Spec.projections. rewrite map_map. cbn [eventOf TimelineEvent.Index].
  generalize 0%nat as b.
  induction entries as [|e entries IH]; intros b; cbn; [ reflexivity | ].
  now rewrite IH.
Qed.

Section Sorted.

Context `{alg : sort.Algorithm} `{!sort.Contract alg}.

(** Every event of the timeline carries the index of the entry it
    projects: the entry at that index of the file gives the event back,
    and no two events carry the same index. *)
Theorem GenerateTimeline_indices (a : t) :
  let entries := Log.Entries (HAR.Log (har a)) in
  (forall ev, In ev (GenerateTimeline a) ->
     exists (i : nat) (entry : Entry.t),
       TimelineEvent.Index ev = Z.of_nat i
       /\ nth_error entries i = Some entry
       /\ ev = eventOf (Z.of_nat i) entry)
  /\ NoDup (map TimelineEvent.Index (GenerateTimeline a)).
Proof.
  cbv zeta.
  assert (P : Permutation (Spec.projections (Log.Entries (HAR.Log (har a))))
                          (GenerateTimeline a)).
  { unfold GenerateTimeline. rewrite AnalyzerFacts.appendEvents_projections.
    apply sort.Slice_permutation. }
  split.
  - intros ev I.
    apply (Permutation_in _ (Permutation_sym P)) in I.
    destruct (projections_In _ _ I) as (i & entry & N & E).
    exists i, entry. repeat split; try assumption. now rewrite E.
  - apply (Permutation_NoDup (Permutation_map TimelineEvent.Index P)).
    rewrite projections_indices.
    apply Finite.Injective_map_NoDup; [ | apply seq_NoDup ].
    intros x y. apply Nat2Z.inj.
Qed.

End Sorted.

Lemma GenerateTimeline_indices_witness :
  sort.Contract sort.insertion
  /\ NoDup (map TimelineEvent.Index
                (@GenerateTimeline sort.insertion Samples.latestFirst)).
Proof.
  split; [ exact SortFacts.insertion_contract | ].
  apply (@GenerateTimeline_indices sort.insertion SortFacts.insertion_contract
           Samples.latestFirst).
Defined.

(** *** The slowest and the largest requests *)

Lemma upTo_negative (limit : Z) (entries : list Entry.t) :
  limit < 0 -> upTo limit entries = None.
Proof.
  intros N. unfold upTo.
  destruct (Z.ltb_spec (Z.of_nat (List.length entries)) limit); [ lia | ].
  destruct (Z.ltb_spec limit 0); [ reflexivity | lia ].
Qed.

Lemma upTo_prefix (limit : Z) (entries : list Entry.t) :
  0 <= limit ->
  exists top rest,
    upTo limit entries = Some top
    /\ entries = top ++ rest
    /\ List.length top = Nat.min (Z.to_nat limit) (List.length entries).
Proof.
  intros P. unfold upTo.
  set (n := Z.of_nat (List.length entries)).
  set (k := if n <? limit then n else limit).
  assert (K : 0 <= k /\ Z.to_nat k = Nat.min (Z.to_nat limit) (List.length entries))
    by (subst k n; destruct (Z.ltb_spec (Z.of_nat (List.length entries)) limit); lia).
  destruct K as [K0 K]. destruct (Z.ltb_spec k 0); [ lia | ].
  exists (firstn (Z.to_nat k) entries), (skipn (Z.to_nat k) entries).
  split; [ reflexivity | split ].
  - symmetry. apply firstn_skipn.
  - rewrite length_firstn, K. lia.
Qed.


Section TopRequests.

Context `{alg : sort.Algorithm} `{!sort.Contract alg}.


(** [GetSlowestRequests] with a limit that is not negative returns the
    smaller of [limit] and the entry count many entries, each of them an
    entry of the file and none more often than the file has it.  A
    negative limit panics. *)
Theorem GetSlowestRequests_count (a : t) (limit : Z) :
  let entries := Log.Entries (HAR.Log (har a)) in
  (limit < 0 -> GetSlowestRequests a limit = None)
  /\ (0 <= limit ->
      exists top rest,
        GetSlowestRequests a limit = Some top
        /\ List.length top = Nat.min (Z.to_nat limit) (List.length entries)
        /\ Permutation entries (top ++ rest)).
Proof.
  cbv zeta. unfold GetSlowestRequests. split.
  - apply upTo_negative.
  - intros P.
    set (sorted := sort.Slice _ slowerThan (Log.Entries (HAR.Log (har a)))).
    assert (Pm : Permutation (Log.Entries (HAR.Log (har a))) sorted)
      by apply sort.Slice_permutation.
    destruct (upTo_prefix limit sorted P) as (top & rest & U & E & L).
    exists top, rest. split; [ exact U | ].
    rewrite (Permutation_length Pm), <- E. split; assumption.
Qed.

End TopRequests.


Lemma GetSlowestRequests_count_witness :
  sort.Contract sort.insertion
  /\ @GetSlowestRequests sort.insertion Samples.latestFirst (-1) = None
  /\ exists top rest,
       @GetSlowestRequests sort.insertion Samples.latestFirst 2 = Some top
       /\ List.length top = 2%nat
       /\ Permutation (Log.Entries (HAR.Log (har Samples.latestFirst)))
                      (top ++ rest).
Proof.
  split; [ exact SortFacts.insertion_contract | ].
  destruct (@GetSlowestRequests_count sort.insertion SortFacts.insertion_contract
              Samples.latestFirst (-1)) as [N _].
  destruct (@GetSlowestRequests_count sort.insertion SortFacts.insertion_contract
              Samples.latestFirst 2) as [_ T].
  split; [ apply N; lia | ].
  destruct T as (top & rest & E & L & P); [ lia | ].
  exists top, rest. split; [ exact E | split; [ exact L | exact P ] ].
Defined.

(** *** Resources by type *)






End AnalyzerQueries.

(** ** More on the comparator *)

Module ComparatorMore.

Import GoInt GoIntFacts Comparator ComparatorFacts.
Local Open Scope string_scope.

(** *** A value compared with itself *)

Lemma finite_cases (x : float) :
  Spec.finite x ->
  (exists s, Prim2SF x = S754_zero s) \/ (exists s m e, Prim2SF x = S754_finite s m e).
Proof.
  intros [N I]. unfold Prim2SF. rewrite N, I.
  destruct (is_zero x); [ left; eexists; reflexivity | ].
  destruct (Z.frexp x) as [r ex].
  destruct (shr_fexp prec emax _ _ _) as [shr e'].
  destruct (shr_m shr); [ left | right | left ]; repeat eexists.
Qed.

(** The percentage by which a finite value differs from itself is below
    the threshold of 0.1. *)
Lemma self_percentage (x : float) :
  Spec.finite x ->
  PrimFloat.ltb
    (PrimFloat.abs
       (if negb (PrimFloat.eqb x 0)
        then PrimFloat.mul (PrimFloat.div (PrimFloat.sub x x) x) 100
        else 0%float))
    GoFloat.one_tenth = true.
Proof.
  intros F. destruct (PrimFloat.eqb x 0) eqn:Z0; cbn [negb]; [ reflexivity | ].
  destruct (finite_cases x F) as [[s P]|(s & m & e & P)].
  - rewrite eqb_spec, P in Z0. destruct s; discriminate Z0.
  - rewrite ltb_spec, abs_spec, mul_spec, div_spec, sub_spec, P.
    unfold SF64sub, SFsub. rewrite Z.sub_diag. cbn [binary_normalize].
    unfold SF64div. cbn [SFdiv].
    destruct s; reflexivity.
Qed.

(** *** Shape of the differences, size of the summary *)

Lemma hits_partition (cells : list (MetricDifference.t * nat)) :
  Forall (fun cell => classify (fst cell) (snd cell) <> None) cells ->
  (Spec.hits Better cells + Spec.hits Worse cells + Spec.hits Unchanged cells
   = Z.of_nat (List.length cells))%Z
  /\ (0 <= Spec.hits Better cells)%Z
  /\ (0 <= Spec.hits Worse cells)%Z
  /\ (0 <= Spec.hits Unchanged cells)%Z.
Proof.
  unfold Spec.hits. induction 1 as [|cell cells C _ IH]; cbn [filter List.length].
  - cbn. lia.
  - destruct (classify (fst cell) (snd cell)) as [[]|]; [ | | | congruence ];
      cbn [verdict_eqb List.length] in *; lia.
Qed.

Lemma hits_all_unchanged (cells : list (MetricDifference.t * nat)) :
  Forall (fun cell => classify (fst cell) (snd cell) = Some Unchanged) cells ->
  Spec.hits Better cells = 0%Z
  /\ Spec.hits Worse cells = 0%Z
  /\ Spec.hits Unchanged cells = Z.of_nat (List.length cells).
Proof.
  unfold Spec.hits. induction 1 as [|cell cells C _ IH]; cbn [filter List.length].
  - cbn. lia.
  - rewrite C. cbn [verdict_eqb List.length] in *. lia.
Qed.

Lemma difference_shape (c : t) (name : string)
  (body : nat -> Metrics.t -> column) :
  metrics c <> [] ->
  (forall m, change (body 0%nat m) = "Baseline"
             /\ improvement (body 0%nat m) = false) ->
  Spec.wellShaped (List.length (metrics c)) (difference name (eachMetric c body)).
Proof.
  intros NE B. unfold Spec.wellShaped. cbn [difference MetricDifference.Values
    MetricDifference.Changes MetricDifference.Improvements].
  rewrite !length_map, eachMetric_length, !nth_error_map.
  destruct (metrics c) as [|m0 ms] eqn:E; [ congruence | ].
  rewrite (eachMetric_nth c body 0 m0) by now rewrite E.
  cbn [option_map]. destruct (B m0) as [-> ->]. cbn. auto.
Qed.

Section Formatting.

Context `{fmt.Float1}.

Lemma keyMetrics_shape (c : t) :
  metrics c <> [] ->
  Forall (Spec.wellShaped (List.length (metrics c))) (keyMetrics c).
Proof.
  intros NE. unfold keyMetrics, compareFloat, compareInt, compareSize.
  repeat (constructor;
          [ apply difference_shape; [ exact NE | intros m; split; reflexivity ] | ]).
  constructor.
Qed.

Lemma keyMetrics_cells (c : t) :
  List.length (Spec.cells (keyMetrics c))
  = (10 * (List.length (metrics c) - 1))%nat.
Proof.
  unfold Spec.cells, keyMetrics, compareFloat, compareInt, compareSize.
  cbn [flat_map difference MetricDifference.Improvements].
  rewrite !length_app, !length_map, !length_seq, !eachMetric_length.
  cbn [List.length]. lia.
Qed.

(** With two files or more, [Compare] keeps the file names and the
    metrics, returns the ten differences in their fixed order, and gives
    each difference one value, one change and one improvement flag per
    file, those of the first file being "Baseline" and false. *)
Theorem Compare_shape (c : t) :
  (2 <= List.length (metrics c))%nat ->
  exists cmp,
    Compare c = Some cmp
    /\ Comparison.Files cmp = files c
    /\ Comparison.Metrics cmp = metrics c
    /\ map MetricDifference.Name (Comparison.Differences cmp) = Spec.rowNames
    /\ Forall (Spec.wellShaped (List.length (metrics c)))
              (Comparison.Differences cmp).
Proof.
  intros L. unfold Compare.
  destruct (Nat.ltb_spec (List.length (metrics c)) 2) as [L'|_]; [ lia | ].
  destruct (calculateSummary_keyMetrics c) as (summary & E & _).
  cbv zeta. rewrite E. eexists. split; [ reflexivity | ].
  cbn [Comparison.Files Comparison.Metrics Comparison.Differences].
  repeat split.
  apply keyMetrics_shape. intros N. rewrite N in L. cbn in L. lia.
Qed.

(** With [n] files, two or more, the summary counts ten columns for
    each file but the first: [TotalMetrics] is [10 * (n - 1)], and it is
    the sum of the three other counts, none of them negative. *)
Theorem Compare_total (c : t) :
  (2 <= List.length (metrics c))%nat ->
  exists cmp,
    Compare c = Some cmp
    /\ ComparisonSummary.TotalMetrics (Comparison.Summary cmp)
       = (10 * (Z.of_nat (List.length (metrics c)) - 1))%Z
    /\ ComparisonSummary.TotalMetrics (Comparison.Summary cmp)
       = (ComparisonSummary.BetterCount (Comparison.Summary cmp)
          + ComparisonSummary.WorseCount (Comparison.Summary cmp)
          + ComparisonSummary.UnchangedCount (Comparison.Summary cmp))%Z
    /\ (0 <= ComparisonSummary.BetterCount (Comparison.Summary cmp))%Z
    /\ (0 <= ComparisonSummary.WorseCount (Comparison.Summary cmp))%Z
    /\ (0 <= ComparisonSummary.UnchangedCount (Comparison.Summary cmp))%Z.
Proof.
  intros L. unfold Compare.
  destruct (Nat.ltb_spec (List.length (metrics c)) 2) as [L'|_]; [ lia | ].
  destruct (calculateSummary_keyMetrics c) as (summary & E & B & W & U & T).
  cbv zeta. rewrite E. eexists. split; [ reflexivity | ].
  cbn [Comparison.Summary]. rewrite T, B, W, U. unfold Spec.tallied.
  destruct (hits_partition _ (keyMetrics_classified c)) as (P & P1 & P2 & P3).
  rewrite P, keyMetrics_cells. repeat split; try assumption. lia.
Qed.

End Formatting.

Lemma Compare_shape_witness :
  (2 <= List.length (metrics Samples.twoFiles))%nat
  /\ exists cmp,
       @Compare fmt.fixed Samples.twoFiles = Some cmp
       /\ map MetricDifference.Name (Comparison.Differences cmp) = Spec.rowNames.
Proof.
  split; [ cbn; lia | ].
  destruct (@Compare_shape fmt.fixed Samples.twoFiles) as (cmp & E & _ & _ & N & _).
  - cbn. lia.
  - exists cmp. auto.
Defined.

Lemma Compare_total_witness :
  (2 <= List.length (metrics Samples.twoFiles))%nat
  /\ exists cmp,
       @Compare fmt.fixed Samples.twoFiles = Some cmp
       /\ ComparisonSummary.TotalMetrics (Comparison.Summary cmp) = 10%Z.
Proof.
  split; [ cbn; lia | ].
  destruct (@Compare_total fmt.fixed Samples.twoFiles) as (cmp & E & T & _).
  - cbn. lia.
  - exists cmp. split; [ exact E | exact T ].
Defined.

(** *** Improvement flags and the better count *)

Lemma difference_flags (name : string) (columns : list column) (i : nat) :
  Forall (fun col => improvement col = true ->
                     (change col =? "No change") = false) columns ->
  nth_error (MetricDifference.Improvements (difference name columns)) i
  = Some true
  <-> classify (difference name columns) i = Some Better.
Proof.
  intros F. cbn [difference MetricDifference.Improvements].
  rewrite nth_error_map.
  destruct (nth_error columns i) as [col|] eqn:E.
  - rewrite (classify_difference _ _ _ _ E). cbn [option_map].
    rewrite Forall_forall in F. specialize (F col (nth_error_In _ _ E)).
    unfold Spec.verdictOf.
    destruct (improvement col).
    + rewrite F by reflexivity. split; reflexivity.
    + destruct (change col =? "No change"); split; discriminate.
  - unfold classify. cbn [difference MetricDifference.Changes].
    rewrite nth_error_map, E. cbn. split; discriminate.
Qed.

Lemma eachMetric_Forall (c : t) (body : nat -> Metrics.t -> column)
  (P : column -> Prop) :
  (forall i m, P (body i m)) -> Forall P (eachMetric c body).
Proof.
  intros B. unfold eachMetric. apply Forall_map, Forall_forall.
  intros im _. apply B.
Qed.

Section Formatting.

Context `{fmt.Float1}.

Lemma floatColumn_flags (c : t) (name unit : string)
  (extractor : Metrics.t -> float) (i : nat) (m : Metrics.t) :
  improvement (floatColumn c name unit extractor i m) = true ->
  (change (floatColumn c name unit extractor i m) =? "No change") = false.
Proof.
  unfold floatColumn. destruct (0 <? i)%nat; [ | discriminate ].
  cbv zeta.
  destruct (PrimFloat.ltb (PrimFloat.abs _) GoFloat.one_tenth); [ discriminate | ].
  destruct (PrimFloat.ltb 0 _); intros _; cbn [change].
  - reflexivity.
  - apply percent_is_a_change.
Qed.

Lemma intColumn_flags (c : t) (name unit : string)
  (extractor : Metrics.t -> Z) (i : nat) (m : Metrics.t) :
  improvement (intColumn c name unit extractor i m) = true ->
  (change (intColumn c name unit extractor i m) =? "No change") = false.
Proof.
  unfold intColumn. destruct (0 <? i)%nat; [ | discriminate ].
  cbv zeta.
  set (ch := sub64 (extractor m) (extractor (baseline c m))).
  destruct (Z.eqb_spec ch 0); [ discriminate | ].
  destruct (Z.ltb_spec 0 ch); intros _; cbn [change].
  - reflexivity.
  - destruct (d_negative ch) as [s D]; [ lia | ]. rewrite D. reflexivity.
Qed.

Lemma sizeColumn_flags (c : t) (extractor : Metrics.t -> Z) (i : nat)
  (m : Metrics.t) :
  improvement (sizeColumn c extractor i m) = true ->
  (change (sizeColumn c extractor i m) =? "No change") = false.
Proof.
  unfold sizeColumn. destruct (0 <? i)%nat; [ | discriminate ].
  cbv zeta.
  set (ch := sub64 (extractor m) (extractor (baseline c m))).
  destruct (Z.eqb_spec ch 0); [ discriminate | ].
  destruct (Z.ltb_spec 0 ch); intros _; reflexivity.
Qed.

Lemma cells_range (differences : list MetricDifference.t)
  (diff : MetricDifference.t) (i : nat) :
  In (diff, i) (Spec.cells differences) ->
  In diff differences
  /\ (1 <= i < List.length (MetricDifference.Improvements diff))%nat.
Proof.
  unfold Spec.cells. rewrite in_flat_map. intros (diff' & D & I).
  apply in_map_iff in I. destruct I as (k & E & K).
  injection E as -> ->. apply in_seq in K. split; [ exact D | lia ].
Qed.

Lemma difference_flagged (c : t) (name : string)
  (body : nat -> Metrics.t -> column) :
  metrics c <> [] ->
  (forall m, change (body 0%nat m) = "Baseline"
             /\ improvement (body 0%nat m) = false) ->
  (forall i m, improvement (body i m) = true ->
               (change (body i m) =? "No change") = false) ->
  let diff := difference name (eachMetric c body) in
  nth_error (MetricDifference.Changes diff) 0 = Some "Baseline"
  /\ nth_error (MetricDifference.Improvements diff) 0 = Some false
  /\ forall i,
       (nth_error (MetricDifference.Improvements diff) i = Some true
        <-> (1 <= i < List.length (MetricDifference.Improvements diff))%nat
            /\ classify diff i = Some Better)
       /\ (nth_error (MetricDifference.Changes diff) i = Some "No change" ->
           nth_error (MetricDifference.Improvements diff) i = Some false).
Proof.
  intros NE B F diff.
  destruct (difference_shape c name body NE B) as (_ & _ & L & C0 & I0).
  fold diff in L, C0, I0.
  split; [ exact C0 | split; [ exact I0 | ] ].
  intros i.
  assert (FL : nth_error (MetricDifference.Improvements diff) i = Some true
               <-> classify diff i = Some Better).
  { apply difference_flags, eachMetric_Forall. exact F. }
  split.
  - split.
    + intros T. split; [ | now apply FL ].
      split.
      * destruct i; [ congruence | lia ].
      * apply nth_error_Some. congruence.
    + intros [_ K]. now apply FL.
  - unfold diff. cbn [difference MetricDifference.Changes
                                 MetricDifference.Improvements].
    rewrite !nth_error_map.
    destruct (nth_error (eachMetric c body) i) as [col|] eqn:E;
      [ | discriminate ].
    cbn [option_map]. intros Ch. injection Ch as Ch. f_equal.
    destruct (improvement col) eqn:Im; [ | reflexivity ].
    unfold eachMetric in E. rewrite nth_error_map in E.
    destruct (nth_error _ i) as [[k m]|] in E; [ | discriminate ].
    injection E as <-. cbn [fst snd] in *.
    specialize (F k m Im). rewrite Ch in F. discriminate.
Qed.

(** In every difference of [Compare], a column has a true improvement
    flag exactly when it is one of the columns that the summary visits
    and is counted there as better.  So the first column, which reads
    "Baseline", is never flagged, nor is a column that reads
    "No change". *)
Theorem Compare_flags (c : t) :
  (2 <= List.length (metrics c))%nat ->
  exists cmp,
    Compare c = Some cmp
    /\ ComparisonSummary.BetterCount (Comparison.Summary cmp)
       = Spec.tallied Better (Comparison.Differences cmp)
    /\ forall diff,
         In diff (Comparison.Differences cmp) ->
         nth_error (MetricDifference.Changes diff) 0 = Some "Baseline"
         /\ nth_error (MetricDifference.Improvements diff) 0 = Some false
         /\ forall i,
              (nth_error (MetricDifference.Improvements diff) i = Some true
               <-> In (diff, i) (Spec.cells (Comparison.Differences cmp))
                   /\ classify diff i = Some Better)
              /\ (nth_error (MetricDifference.Changes diff) i
                  = Some "No change" ->
                  nth_error (MetricDifference.Improvements diff) i
                  = Some false).
Proof.
  intros L.
  destruct (Compare_two_or_more c L) as (cmp & E & D & B & _).
  exists cmp. split; [ exact E | ]. rewrite D. split; [ exact B | ].
  assert (NE : metrics c <> []) by (destruct (metrics c); cbn in L; [ lia | discriminate ]).
  assert (A : Forall
                (fun diff =>
                   nth_error (MetricDifference.Changes diff) 0 = Some "Baseline"
                   /\ nth_error (MetricDifference.Improvements diff) 0 = Some false
                   /\ forall i,
                        (nth_error (MetricDifference.Improvements diff) i = Some true
                         <-> (1 <= i < List.length
                                         (MetricDifference.Improvements diff))%nat
                             /\ classify diff i = Some Better)
                        /\ (nth_error (MetricDifference.Changes diff) i
                            = Some "No change" ->
                            nth_error (MetricDifference.Improvements diff) i
                            = Some false))
                (keyMetrics c)).
  { unfold keyMetrics, compareFloat, compareInt, compareSize.
    repeat (constructor;
            [ apply difference_flagged;
              [ exact NE | intros m; split; reflexivity
              | first [ apply floatColumn_flags | apply intColumn_flags
                      | apply sizeColumn_flags ] ] | ]).
    constructor. }
  intros diff I. rewrite Forall_forall in A.
  destruct (A diff I) as (C0 & I0 & R).
  split; [ exact C0 | split; [ exact I0 | ] ].
  intros i. destruct (R i) as [FL NC]. split; [ | exact NC ].
  rewrite FL. split.
  - intros [Rg K]. split; [ now apply cells_in | exact K ].
  - intros [Ce K]. split; [ now apply (cells_range _ _ _ Ce) | exact K ].
Qed.

End Formatting.

Lemma Compare_flags_witness :
  (2 <= List.length (metrics Samples.twoFiles))%nat
  /\ exists cmp load,
       @Compare fmt.fixed Samples.twoFiles = Some cmp
       /\ nth_error (Comparison.Differences cmp) 0 = Some load
       /\ MetricDifference.Name load = "Total Load Time"
       /\ MetricDifference.Improvements load = [ false; true ]
       /\ In (load, 1%nat) (Spec.cells (Comparison.Differences cmp))
       /\ classify load 1 = Some Better.
Proof.
  split; [ cbn; lia | ].
  destruct (@Compare_flags fmt.fixed Samples.twoFiles) as (cmp & E & _ & F);
    [ cbn; lia | ].
  assert (N : exists load,
             nth_error (Comparison.Differences cmp) 0 = Some load
             /\ MetricDifference.Name load = "Total Load Time"
             /\ MetricDifference.Improvements load = [ false; true ]).
  { vm_compute in E. injection E as <-. eexists.
    split; [ reflexivity | split; reflexivity ]. }
  destruct N as (load & N0 & N1 & N2).
  exists cmp, load. split; [ exact E | ]. split; [ exact N0 | ].
  split; [ exact N1 | ]. split; [ exact N2 | ].
  destruct (F load (nth_error_In _ _ N0)) as (_ & _ & R).
  apply (R 1%nat). now rewrite N2.
Defined.

(** *** Direction of the integer rows; identical files *)

Section Formatting.

Context `{fmt.Float1}.

Lemma intColumn_lower (c : t) (name unit : string)
  (extractor : Metrics.t -> Z) (i : nat) (m0 mi : Metrics.t) :
  nth_error (metrics c) 0 = Some m0 ->
  (1 <= i)%nat ->
  in_int64 (extractor mi - extractor m0) ->
  (forall ch, isImprovementInt name ch = (ch <? 0)%Z) ->
  Spec.verdictOf (intColumn c name unit extractor i mi)
  = if (extractor mi <? extractor m0)%Z then Better
    else if (extractor mi =? extractor m0)%Z then Unchanged
    else Worse.
Proof.
  intros M0 I S Imp. unfold Spec.verdictOf, intColumn.
  rewrite (baseline_first c m0 mi M0).
  destruct (Nat.ltb_spec 0 i); [ | lia ].
  cbv zeta. unfold sub64. rewrite (wrap64_small _ S), Imp.
  destruct (Z.eqb_spec (extractor mi - extractor m0) 0) as [Q|Q];
    destruct (Z.ltb_spec 0 (extractor mi - extractor m0)) as [Q1|Q1];
    destruct (Z.ltb_spec (extractor mi) (extractor m0)) as [Q2|Q2];
    destruct (Z.eqb_spec (extractor mi) (extractor m0)) as [Q3|Q3];
    try lia; cbn [change improvement]; try reflexivity;
    try (destruct (d_negative (extractor mi - extractor m0)) as [s Dn];
         [ lia | rewrite Dn; cbn ]);
    destruct (Z.ltb_spec (extractor mi - extractor m0) 0); try lia; reflexivity.
Qed.

Lemma sizeColumn_lower (c : t) (extractor : Metrics.t -> Z) (i : nat)
  (m0 mi : Metrics.t) :
  nth_error (metrics c) 0 = Some m0 ->
  (1 <= i)%nat ->
  in_int64 (extractor mi - extractor m0) ->
  Spec.verdictOf (sizeColumn c extractor i mi)
  = if (extractor mi <? extractor m0)%Z then Better
    else if (extractor mi =? extractor m0)%Z then Unchanged
    else Worse.
Proof.
  intros M0 I S. unfold Spec.verdictOf, sizeColumn.
  rewrite (baseline_first c m0 mi M0).
  destruct (Nat.ltb_spec 0 i); [ | lia ].
  cbv zeta. unfold sub64. rewrite (wrap64_small _ S).
  destruct (Z.eqb_spec (extractor mi - extractor m0) 0) as [Q|Q];
    destruct (Z.ltb_spec 0 (extractor mi - extractor m0)) as [Q1|Q1];
    destruct (Z.ltb_spec (extractor mi) (extractor m0)) as [Q2|Q2];
    destruct (Z.eqb_spec (extractor mi) (extractor m0)) as [Q3|Q3];
    try lia; cbn [change improvement]; try reflexivity;
    destruct (Z.ltb_spec (extractor mi - extractor m0) 0); try lia; reflexivity.
Qed.

(** On the error count, the third-party count and the transfer size, a
    file with a lower value than the baseline is counted as better, one
    with a higher value as worse, one with the same value as unchanged
    (the difference of the two values being an [int64]). *)
Theorem Compare_lower_is_better (c : t) (m0 mi : Metrics.t) (i k : nat)
  (name : string) (extractor : Metrics.t -> Z) :
  nth_error (metrics c) 0 = Some m0 ->
  nth_error (metrics c) i = Some mi ->
  (1 <= i)%nat ->
  In (k, name, extractor) Spec.lowerIsBetterRows ->
  in_int64 (extractor mi - extractor m0) ->
  exists cmp diff,
    Compare c = Some cmp
    /\ nth_error (Comparison.Differences cmp) k = Some diff
    /\ MetricDifference.Name diff = name
    /\ Spec.countedAs cmp diff i
         (if (extractor mi <? extractor m0)%Z then Better
          else if (extractor mi =? extractor m0)%Z then Unchanged
          else Worse).
Proof.
  intros M0 Mi I R S.
  destruct (Compare_two_or_more c (two_or_more c m0 mi i M0 Mi I))
    as (cmp & E & D & B & W & U).
  exists cmp.
  cbn in R.
  destruct R as [R|[R|[R|[]]]]; injection R as <- <- <-; eexists;
    match goal with
    | |- _ /\ nth_error _ ?k = _ /\ _ =>
        pose proof (Compare_counts_column c cmp k i _ _ mi D B W U
                      eq_refl Mi I) as (P1 & P2 & _ & _ & P5)
    end;
    (split; [ exact E | split; [ exact P1 | split; [ exact P2 | ] ] ]);
    first [ rewrite (intColumn_lower c _ _ _ i m0 mi M0 I S) in P5;
            [ exact P5 | reflexivity ]
          | rewrite (sizeColumn_lower c _ i m0 mi M0 I S) in P5; exact P5 ].
Qed.

End Formatting.

Lemma Compare_lower_is_better_witness :
  exists cmp diff,
    @Compare fmt.fixed Samples.twoFiles = Some cmp
    /\ nth_error (Comparison.Differences cmp) 6 = Some diff
    /\ MetricDifference.Name diff = "Error Requests"
    /\ Spec.countedAs cmp diff 1 Worse.
Proof.
  apply (@Compare_lower_is_better fmt.fixed Samples.twoFiles
           (Samples.metrics 10 0 2500) (Samples.metrics 12 2 1800) 1 6
           "Error Requests" extractErrorRequests);
    solve [ reflexivity | lia | cbn; auto
          | unfold in_int64, min_int64, max_int64; cbn; lia ].
Defined.

Lemma row_unchanged (c : t) (name : string) (body : nat -> Metrics.t -> column) :
  (forall i mi, (1 <= i)%nat -> nth_error (metrics c) i = Some mi ->
                Spec.verdictOf (body i mi) = Unchanged) ->
  let diff := difference name (eachMetric c body) in
  Forall (fun cell => classify (fst cell) (snd cell) = Some Unchanged)
         (map (pair diff)
              (seq 1 (List.length (MetricDifference.Improvements diff) - 1))).
Proof.
  intros B. cbv zeta. apply Forall_map, Forall_forall. intros i I.
  cbn [fst snd]. apply in_seq in I.
  cbn [difference MetricDifference.Improvements] in I.
  rewrite length_map, eachMetric_length in I.
  destruct (nth_error (metrics c) i) as [mi|] eqn:E;
    [ | apply nth_error_None in E; lia ].
  rewrite (classify_difference _ _ _ _ (eachMetric_nth c body i mi E)).
  f_equal. apply B; [ lia | exact E ].
Qed.

Section Formatting.

Context `{fmt.Float1}.

Lemma floatColumn_same (c : t) (name unit : string)
  (extractor : Metrics.t -> float) (i : nat) (m0 mi : Metrics.t) :
  nth_error (metrics c) 0 = Some m0 ->
  (1 <= i)%nat ->
  extractor mi = extractor m0 ->
  Spec.finite (extractor m0) ->
  Spec.verdictOf (floatColumn c name unit extractor i mi) = Unchanged.
Proof.
  intros M0 I E F. unfold floatColumn.
  rewrite (baseline_first c m0 mi M0), E.
  destruct (Nat.ltb_spec 0 i); [ | lia ].
  cbv zeta. rewrite (self_percentage _ F). reflexivity.
Qed.

Lemma intColumn_same (c : t) (name unit : string)
  (extractor : Metrics.t -> Z) (i : nat) (m0 mi : Metrics.t) :
  nth_error (metrics c) 0 = Some m0 ->
  (1 <= i)%nat ->
  extractor mi = extractor m0 ->
  Spec.verdictOf (intColumn c name unit extractor i mi) = Unchanged.
Proof.
  intros M0 I E. unfold intColumn.
  rewrite (baseline_first c m0 mi M0), E.
  destruct (Nat.ltb_spec 0 i); [ | lia ].
  cbv zeta. unfold sub64. rewrite Z.sub_diag. reflexivity.
Qed.

Lemma sizeColumn_same (c : t) (extractor : Metrics.t -> Z) (i : nat)
  (m0 mi : Metrics.t) :
  nth_error (metrics c) 0 = Some m0 ->
  (1 <= i)%nat ->
  extractor mi = extractor m0 ->
  Spec.verdictOf (sizeColumn c extractor i mi) = Unchanged.
Proof.
  intros M0 I E. unfold sizeColumn.
  rewrite (baseline_first c m0 mi M0), E.
  destruct (Nat.ltb_spec 0 i); [ | lia ].
  cbv zeta. unfold sub64. rewrite Z.sub_diag. reflexivity.
Qed.

(** When every file has the baseline's values in the ten fields that
    [Compare] reads, and the six float values are finite, every column is
    counted as unchanged: with [n] files the summary is 0 better, 0 worse
    and [10 * (n - 1)] unchanged. *)
Theorem Compare_identical (c : t) (m0 : Metrics.t) :
  nth_error (metrics c) 0 = Some m0 ->
  (2 <= List.length (metrics c))%nat ->
  Forall (fun mi => Spec.sameTracked mi m0) (metrics c) ->
  Spec.finiteMetrics m0 ->
  exists cmp,
    Compare c = Some cmp
    /\ Comparison.Summary cmp
       = {| ComparisonSummary.BetterCount := 0;
            ComparisonSummary.WorseCount := 0;
            ComparisonSummary.UnchangedCount :=
              10 * (Z.of_nat (List.length (metrics c)) - 1);
            ComparisonSummary.TotalMetrics :=
              10 * (Z.of_nat (List.length (metrics c)) - 1) |}.
Proof.
  intros M0 L Same (F1 & F2 & F3 & F4 & F5 & F6).
  assert (S : forall i mi, nth_error (metrics c) i = Some mi ->
                           Spec.sameTracked mi m0).
  { intros i mi N. rewrite Forall_forall in Same.
    apply Same. eapply nth_error_In. exact N. }
  assert (A : Forall (fun cell => classify (fst cell) (snd cell) = Some Unchanged)
                     (Spec.cells (keyMetrics c))).
  { unfold Spec.cells. apply Forall_flat_map.
    unfold keyMetrics, compareFloat, compareInt, compareSize.
    repeat (constructor;
            [ apply row_unchanged; intros i mi I N;
              destruct (S i mi N) as (S1 & S2 & S3 & S4 & S5 & S6 & S7 & S8 & S9 & S10);
              first [ apply (floatColumn_same c _ _ _ i m0 mi M0 I); assumption
                    | apply (intColumn_same c _ _ _ i m0 mi M0 I); assumption
                    | apply (sizeColumn_same c _ i m0 mi M0 I); assumption ] | ]).
    constructor. }
  destruct (hits_all_unchanged _ A) as (HB & HW & HU).
  unfold Compare.
  destruct (Nat.ltb_spec (List.length (metrics c)) 2) as [L'|_]; [ lia | ].
  destruct (calculateSummary_keyMetrics c) as (summary & E & B & W & U & T).
  cbv zeta. rewrite E. eexists. split; [ reflexivity | ].
  cbn [Comparison.Summary]. destruct summary as [b w u t].
  cbn [ComparisonSummary.BetterCount ComparisonSummary.WorseCount
       ComparisonSummary.UnchangedCount ComparisonSummary.TotalMetrics] in *.
  unfold Spec.tallied in *. rewrite HB, HW, HU, keyMetrics_cells in *.
  subst. f_equal; lia.
Qed.

End Formatting.

Lemma Compare_identical_witness :
  exists cmp,
    @Compare fmt.fixed
       (NewComparator [ "a.har"; "b.har" ]
          [ Samples.metrics 10 0 2500; Samples.metrics 10 0 2500 ]) = Some cmp
    /\ Comparison.Summary cmp = ComparisonSummary.mk 0 0 10 10.
Proof.
  apply (@Compare_identical fmt.fixed
           (NewComparator [ "a.har"; "b.har" ]
              [ Samples.metrics 10 0 2500; Samples.metrics 10 0 2500 ])
           (Samples.metrics 10 0 2500)).
  - reflexivity.
  - cbn. lia.
  - repeat constructor.
  - repeat split.
Defined.

End ComparatorMore.

(** ** Drawing a bar *)

Module DrawFacts.

Import GoInt GoIntFacts TimelineRenderer TimelineRendererFacts.









(** The bar of the overlong request is one that panics. *)
Example drawBar_overlong :
  drawBar (mkBar 1032 (2 ^ 63 - 1024)) 200 1033 = None.
Proof. vm_compute. reflexivity. Qed.



(** ** The time window of the chart *)

Lemma timeBounds_from (timeline : list TimelineEvent.t) (s0 e0 s e : time.Time) :
  fold_left boundsBody timeline (s0, e0) = (s, e) ->
  s <= s0 /\ e0 <= e
  /\ Forall (fun ev =>
               s <= TimelineEvent.StartTime ev
               /\ time.Add (TimelineEvent.StartTime ev)
                           (time.of_float_ms (TimelineEvent.Duration ev)) <= e)
            timeline
  /\ (s = s0 \/ Exists (fun ev => s = TimelineEvent.StartTime ev) timeline).
Proof.
  revert s0 e0. induction timeline as [|ev timeline IH]; intros s0 e0;
    cbn [fold_left].
  - intros E. injection E as <- <-. repeat split; try lia; auto.
  - unfold boundsBody at 2. unfold time.Before, time.After.
    intros E. apply IH in E. destruct E as (S & En & F & X).
    destruct (Z.ltb_spec (TimelineEvent.StartTime ev) s0);
      destruct (Z.ltb_spec e0 (time.Add (TimelineEvent.StartTime ev)
                                 (time.of_float_ms (TimelineEvent.Duration ev))));
      (repeat split; [ lia | lia | constructor; [ lia | exact F ] | ]);
      (destruct X as [X|X]; [ | right; now constructor 2 ]);
      first [ left; lia | right; constructor 1; lia ].
Qed.

(** After [RenderWaterfall] has gone through the events, the renderer's
    start time is the earliest start time of the timeline and its end
    time is no earlier than any event's end nor than the start time: no
    event starts before the origin of the chart, and the offset of every
    event from the origin is a duration that is not negative. *)
Theorem prepare_bounds (tr : t) (first : TimelineEvent.t)
  (rest : list TimelineEvent.t) :
  let timeline := first :: rest in
  let tr' := prepare tr first timeline in
  Forall (fun ev =>
            startTime tr' <= TimelineEvent.StartTime ev
            /\ 0 <= time.Sub (TimelineEvent.StartTime ev) (startTime tr')
            /\ time.Add (TimelineEvent.StartTime ev)
                        (time.of_float_ms (TimelineEvent.Duration ev))
               <= endTime tr')
         timeline
  /\ Exists (fun ev => startTime tr' = TimelineEvent.StartTime ev) timeline
  /\ startTime tr' <= endTime tr'.
Proof.
  cbv zeta. unfold prepare, timeBounds.
  destruct (fold_left boundsBody (first :: rest)
              (TimelineEvent.StartTime first, TimelineEvent.StartTime first))
    as [s e] eqn:B.
  cbn [startTime endTime].
  destruct (timeBounds_from _ _ _ _ _ B) as (S & En & F & X).
  repeat split.
  - revert F. apply Forall_impl. intros ev [L R]. repeat split; try assumption.
    unfold time.Sub, min_int64, max_int64.
    destruct (Z.ltb_spec (TimelineEvent.StartTime ev - s) (- 2 ^ 63)); [ lia | ].
    destruct (Z.ltb_spec (2 ^ 63 - 1) (TimelineEvent.StartTime ev - s)); lia.
  - destruct X as [X|X]; [ constructor 1; exact X | exact X ].
  - lia.
Qed.

(** *** The bars, on samples *)



End DrawFacts.

(** ** Table helpers and the filter *)

Module TuiFacts.

Import GoInt GoIntFacts tui.
Local Open Scope string_scope.

(** *** Strings *)

Lemma length_app (a b : string) :
  String.length (a ++ b) = (String.length a + String.length b)%nat.
Proof. induction a as [|c a IH]; cbn; [ reflexivity | now rewrite IH ]. Qed.

Lemma app_empty_r (a : string) : a ++ "" = a.
Proof. induction a as [|c a IH]; cbn; [ reflexivity | now rewrite IH ]. Qed.

Lemma app_assoc (a b c : string) : (a ++ b) ++ c = a ++ b ++ c.
Proof. induction a as [|x a IH]; cbn; [ reflexivity | now rewrite IH ]. Qed.

Lemma substring_0_app (a b : string) :
  String.substring 0 (String.length a) (a ++ b) = a.
Proof.
  induction a as [|c a IH]; cbn.
  - destruct b; reflexivity.
  - now rewrite IH.
Qed.

Lemma substring_skip (pre r : string) (n : nat) :
  String.substring (String.length pre) n (pre ++ r) = String.substring 0 n r.
Proof. induction pre as [|c pre IH]; cbn; [ reflexivity | exact IH ]. Qed.

Lemma substring_0_prefix (s : string) (n : nat) :
  exists post, s = String.substring 0 n s ++ post.
Proof.
  revert s. induction n as [|n IH]; intros s.
  - exists s. destruct s; reflexivity.
  - destruct s as [|c s]; cbn.
    + now exists "".
    + destruct (IH s) as [post E]. exists post. now rewrite <- E.
Qed.

Lemma substring_occurs (s : string) (i n : nat) :
  exists pre post, s = pre ++ String.substring i n s ++ post.
Proof.
  revert s. induction i as [|i IH]; intros s.
  - destruct (substring_0_prefix s n) as [post E]. now exists "", post.
  - destruct s as [|c s].
    + exists "", "". destruct n; reflexivity.
    + destruct (IH s) as (pre & post & E). exists (String c pre), post.
      cbn. now rewrite <- E.
Qed.

Lemma substring_0_length (s : string) (n : nat) :
  (n <= String.length s)%nat -> String.length (String.substring 0 n s) = n.
Proof.
  revert s. induction n as [|n IH]; intros s L.
  - destruct s; reflexivity.
  - destruct s as [|c s]; cbn in *; [ lia | ]. rewrite IH; lia.
Qed.

(** *** Truncation *)

(** With a limit of three or more, [truncateURL] returns a string no
    longer than the limit: the URL itself if it fits, else its first
    [maxLen - 3] bytes followed by three dots, of length [maxLen]
    exactly.  With a limit below three, a URL longer than the limit makes
    the slice expression panic. *)
Theorem truncateURL_length (url : string) (maxLen : Z) :
  min_int64 + 3 <= maxLen <= max_int64 ->
  (3 <= maxLen ->
   exists r,
     truncateURL url maxLen = Some r
     /\ (Z.of_nat (String.length r) <= maxLen)%Z
     /\ (Z.of_nat (String.length url) <= maxLen -> r = url)
     /\ (maxLen < Z.of_nat (String.length url) ->
         r = String.substring 0 (Z.to_nat (maxLen - 3)) url ++ "..."
         /\ Z.of_nat (String.length r) = maxLen))
  /\ (maxLen < 3 -> maxLen < Z.of_nat (String.length url) ->
      truncateURL url maxLen = None).
Proof.
  intros R. unfold truncateURL, sub64.
  rewrite (wrap64_small (maxLen - 3))
    by (unfold in_int64, min_int64, max_int64 in *; lia).
  split.
  - intros M.
    destruct (Z.leb_spec (Z.of_nat (String.length url)) maxLen) as [F|F].
    + exists url. split; [ reflexivity | ]. split; [ lia | ].
      split; [ reflexivity | lia ].
    + destruct (Z.ltb_spec (maxLen - 3) 0); [ lia | ].
      destruct (Z.ltb_spec (Z.of_nat (String.length url)) (maxLen - 3)); [ lia | ].
      cbn [orb]. eexists. split; [ reflexivity | ].
      assert (L : String.length
                    (String.substring 0 (Z.to_nat (maxLen - 3)) url ++ "...")
                  = Z.to_nat maxLen).
      { rewrite length_app, substring_0_length by lia. cbn. lia. }
      split; [ lia | ]. split; [ lia | ]. intros _. split; [ reflexivity | lia ].
  - intros M F.
    destruct (Z.leb_spec (Z.of_nat (String.length url)) maxLen); [ lia | ].
    destruct (Z.ltb_spec (maxLen - 3) 0) as [N|N]; [ reflexivity | lia ].
Qed.

Lemma truncateURL_length_witness :
  truncateURL "https://example.com/app.js" 10 = Some "https:/..."
  /\ truncateURL "https://example.com/app.js" 2 = None.
Proof.
  destruct (truncateURL_length "https://example.com/app.js" 10) as [A _];
    [ unfold min_int64, max_int64; lia | ].
  destruct (truncateURL_length "https://example.com/app.js" 2) as [_ B];
    [ unfold min_int64, max_int64; lia | ].
  split.
  - destruct (A ltac:(lia)) as (r & E & _ & _ & T).
    rewrite E. f_equal. apply T. cbn. lia.
  - apply B; cbn; lia.
Defined.

(** *** Case-insensitive search *)

Lemma toLower_letter (c : ascii) : toLower c = Spec.lowerLetter c.
Proof. destruct c as [[] [] [] [] [] [] [] []]; reflexivity. Qed.

Lemma length_lower (s : string) : String.length (Spec.lower s) = String.length s.
Proof. induction s as [|c s IH]; cbn; [ reflexivity | now rewrite IH ]. Qed.

Lemma forallb_seq_shift (f : nat -> bool) (k n : nat) :
  forallb f (seq (S k) n) = forallb (fun i => f (S i)) (seq k n).
Proof.
  revert k. induction n as [|n IH]; intros k; cbn; [ reflexivity | ].
  now rewrite IH.
Qed.

Lemma equalIgnoreCase_lower (a b : string) :
  equalIgnoreCase a b = true <-> Spec.lower a = Spec.lower b.
Proof.
  unfold equalIgnoreCase. revert b.
  induction a as [|x a IH]; intros [|y b]; cbn [String.length Spec.lower].
  - cbn. tauto.
  - cbn. split; discriminate.
  - cbn. split; discriminate.
  - specialize (IH b).
    change (S (String.length a) =? S (String.length b))%nat
      with (String.length a =? String.length b)%nat.
    destruct (String.length a =? String.length b)%nat eqn:L; cbn [negb] in *.
    + cbn [seq forallb String.get]. rewrite forallb_seq_shift. cbn [String.get].
      rewrite Bool.andb_true_iff, IH, Ascii.eqb_eq, !toLower_letter.
      split.
      * intros [E1 E2]. now rewrite E1, E2.
      * intros E. injection E as E1 E2. now split.
    + split; [ discriminate | ]. intros E. injection E as _ E.
      apply (f_equal String.length) in E. rewrite !length_lower in E.
      apply Nat.eqb_neq in L. contradiction.
Qed.

(** [contains] is the case-insensitive substring test, for the ASCII
    letters: it holds exactly when some stretch of [s] equals [substr] up
    to the case of the letters A to Z.  In particular the empty string is
    contained in every string. *)
Theorem contains_substring (s substr : string) :
  contains s substr = true
  <-> exists pre mid post,
        s = pre ++ mid ++ post /\ Spec.lower mid = Spec.lower substr.
Proof.
  unfold contains. split.
  - rewrite Bool.andb_true_iff, !Bool.orb_true_iff.
    intros [_ [[E|E]|E]].
    + apply String.eqb_eq in E. subst substr.
      exists "", s, "". now rewrite app_empty_r.
    + apply Nat.eqb_eq in E. destruct substr; [ | discriminate ].
      now exists "", "", s.
    + unfold findSubstring in E. apply existsb_exists in E.
      destruct E as (i & _ & E). apply equalIgnoreCase_lower in E.
      destruct (substring_occurs s i (String.length substr)) as (pre & post & S).
      now exists pre, (String.substring i (String.length substr) s), post.
  - intros (pre & mid & post & -> & E).
    assert (L : String.length mid = String.length substr).
    { apply (f_equal String.length) in E. now rewrite !length_lower in E. }
    rewrite Bool.andb_true_iff. split.
    + apply Nat.leb_le. rewrite !length_app. lia.
    + rewrite Bool.orb_true_iff. right.
      unfold findSubstring. apply existsb_exists.
      exists (String.length pre). split.
      * apply in_seq. rewrite !length_app. lia.
      * rewrite substring_skip, <- L, substring_0_app.
        now apply equalIgnoreCase_lower.
Qed.

Lemma contains_substring_witness :
  contains "Content-Type: TEXT/html" "text/HTML" = true.
Proof.
  apply (contains_substring "Content-Type: TEXT/html" "text/HTML").
  exists "Content-Type: ", "TEXT/html", "". split; reflexivity.
Defined.

(** *** The filter *)

Lemma contains_empty (s : string) : contains s "" = true.
Proof.
  unfold contains. cbn [String.length Nat.leb Nat.eqb andb].
  now rewrite Bool.orb_true_r.
Qed.

Lemma filterEntries_from (f : string) (es acc : list Entry.t) :
  fold_left
    (fun filtered entry =>
       if matchesFilter entry f then (filtered ++ [entry])%list else filtered)
    es acc
  = (acc ++ filter (fun e => matchesFilter e f) es)%list.
Proof.
  revert acc. induction es as [|e es IH]; intros acc; cbn [fold_left filter].
  - now rewrite app_nil_r.
  - rewrite IH. destruct (matchesFilter e f); [ | reflexivity ].
    now rewrite <- List.app_assoc.
Qed.

(** [filterEntries] keeps, in their order, exactly the entries of the
    current file that [matchesFilter] accepts; this also holds for the
    empty filter text, which every entry matches, so that nothing is
    dropped then. *)
Theorem filterEntries_filter (fileEntries : list Entry.t) (filterText : string) :
  filterEntries fileEntries filterText
  = filter (fun e => matchesFilter e filterText) fileEntries
  /\ filterEntries fileEntries "" = fileEntries.
Proof.
  assert (E : forall es, filter (fun e => matchesFilter e "") es = es).
  { induction es as [|e es IH]; cbn [filter]; [ reflexivity | ].
    unfold matchesFilter at 1. rewrite contains_empty. cbn [orb]. now rewrite IH. }
  split; [ | reflexivity ].
  unfold filterEntries. destruct (String.eqb_spec filterText "") as [->|N].
  - now rewrite E.
  - now rewrite filterEntries_from.
Qed.

End TuiFacts.

(** ** The report summary *)

Module ReportFacts.

Import GoInt GoIntFacts Analyzer Generator.

Lemma metrics_counts (a : Analyzer.t) :
  Metrics.TotalRequests (CalculateMetrics a)
  = Z.of_nat (List.length (Log.Entries (HAR.Log (Analyzer.har a))))
  /\ Metrics.ErrorRequests (CalculateMetrics a)
     = Z.of_nat (List.length
                   (filter Spec.isError (Log.Entries (HAR.Log (Analyzer.har a))))).
Proof.
  unfold CalculateMetrics.
  destruct (Log.Entries (HAR.Log (Analyzer.har a))) as [|e entries] eqn:E.
  - split; reflexivity.
  - cbn [Metrics.TotalRequests Metrics.ErrorRequests]. split; [ reflexivity | ].
    rewrite (AnalyzerQueries.loop_counts errorRequests Spec.isError)
      by reflexivity.
    reflexivity.
Qed.

Lemma loop_totalRequests (l : list Analyzer.t) (v : totals) :
  wrap64 (totalRequests (fold_left Generator.loopBody l v))
  = wrap64 (totalRequests v + Z.of_nat (List.length (Spec.allEntries l))).
Proof.
  revert v. induction l as [|a l IH]; intros v; cbn [fold_left].
  - cbn. now rewrite Z.add_0_r.
  - rewrite IH. cbn [Generator.loopBody totalRequests]. unfold add64.
    rewrite AnalyzerQueries.wrap64_add_l.
    destruct (metrics_counts a) as [-> _]. f_equal.
    unfold Spec.allEntries. cbn [flat_map]. rewrite length_app. lia.
Qed.

Lemma loop_totalErrors (l : list Analyzer.t) (v : totals) :
  wrap64 (totalErrors (fold_left Generator.loopBody l v))
  = wrap64 (totalErrors v
            + Z.of_nat (List.length (filter Spec.isError (Spec.allEntries l)))).
Proof.
  revert v. induction l as [|a l IH]; intros v; cbn [fold_left].
  - cbn. now rewrite Z.add_0_r.
  - rewrite IH. cbn [Generator.loopBody totalErrors]. unfold add64.
    rewrite AnalyzerQueries.wrap64_add_l.
    destruct (metrics_counts a) as [_ ->]. f_equal.
    unfold Spec.allEntries. cbn [flat_map]. rewrite filter_app, length_app. lia.
Qed.

Lemma loop_in_int64 (l : list Analyzer.t) (v : totals) :
  l <> [] ->
  in_int64 (totalRequests (fold_left Generator.loopBody l v))
  /\ in_int64 (totalErrors (fold_left Generator.loopBody l v)).
Proof.
  destruct l as [|a l _] using rev_ind; [ congruence | ]. intros _.
  rewrite fold_left_app. cbn [fold_left Generator.loopBody totalRequests totalErrors].
  split; apply wrap64_range.
Qed.

(** The totals of the report summary count the entries of all files
    together: the total of requests is the number of entries of all the
    analysed files and the total of errors the number of those with a
    status of 400 or more (both modulo 2^64, and exactly while the
    number of entries is an [int64]), so the errors never exceed the
    requests; the number of files is that of the HAR files, also when
    there is no analyzer. *)
Theorem calculateSummary_totals (g : Generator.t) :
  let all := Spec.allEntries (analyzers g) in
  let s := Generator.calculateSummary g in
  ReportSummary.TotalFiles s = Z.of_nat (List.length (harFiles g))
  /\ ReportSummary.TotalRequests s = wrap64 (Z.of_nat (List.length all))
  /\ ReportSummary.TotalErrors s
     = wrap64 (Z.of_nat (List.length (filter Spec.isError all)))
  /\ (Z.of_nat (List.length all) <= max_int64 ->
      ReportSummary.TotalRequests s = Z.of_nat (List.length all)
      /\ ReportSummary.TotalErrors s
         = Z.of_nat (List.length (filter Spec.isError all))
      /\ 0 <= ReportSummary.TotalErrors s <= ReportSummary.TotalRequests s).
Proof.
  cbv zeta.
  assert (E : ReportSummary.TotalFiles (Generator.calculateSummary g)
              = Z.of_nat (List.length (harFiles g))
              /\ ReportSummary.TotalRequests (Generator.calculateSummary g)
                 = wrap64 (Z.of_nat (List.length (Spec.allEntries (analyzers g))))
              /\ ReportSummary.TotalErrors (Generator.calculateSummary g)
                 = wrap64 (Z.of_nat (List.length
                     (filter Spec.isError (Spec.allEntries (analyzers g)))))).
  { unfold Generator.calculateSummary.
    destruct (analyzers g) as [|a l] eqn:A.
    - repeat split.
    - cbn [ReportSummary.TotalFiles ReportSummary.TotalRequests
           ReportSummary.TotalErrors].
      destruct (loop_in_int64 (a :: l) totals0) as [R1 R2]; [ discriminate | ].
      split; [ reflexivity | ]. split.
      + rewrite <- (wrap64_small _ R1). now rewrite loop_totalRequests.
      + rewrite <- (wrap64_small _ R2). now rewrite loop_totalErrors. }
  destruct E as (E0 & E1 & E2). split; [ exact E0 | ]. split; [ exact E1 | ].
  split; [ exact E2 | ]. intros B.
  pose proof (AnalyzerQueries.filter_length_le_Z Spec.isError
                (Spec.allEntries (analyzers g))) as F.
  rewrite E1, E2.
  rewrite !wrap64_small by (unfold in_int64, min_int64, max_int64 in *; lia).
  repeat split; lia.
Qed.

Lemma calculateSummary_totals_witness :
  Z.of_nat (List.length (Spec.allEntries (analyzers Samples.generator)))
  <= max_int64
  /\ ReportSummary.TotalRequests (Generator.calculateSummary Samples.generator) = 3
  /\ 0 <= ReportSummary.TotalErrors (Generator.calculateSummary Samples.generator)
       <= ReportSummary.TotalRequests (Generator.calculateSummary Samples.generator).
Proof.
  assert (B : Z.of_nat (List.length (Spec.allEntries (analyzers Samples.generator)))
              <= max_int64) by (vm_compute; discriminate).
  destruct (calculateSummary_totals Samples.generator) as (_ & _ & _ & H).
  destruct (H B) as (A & _ & C).
  split; [ exact B | ]. split; [ exact A | exact C ].
Defined.

End ReportFacts.
